(** * commitvalidator: a pull-request webhook receiver

    A shallow embedding of the two variants of the program found in the
    repository ([main.go] and the second, longer variant, called [Part000]
    here) and the proofs of the properties its specification states.

    The handler is effectful: it writes to an [http.ResponseWriter], logs,
    and talks to a remote REST API.  It is embedded in a small state monad
    over the record [St]; everything that the Go standard library or the
    outside world decides (the token in the environment, whether a URL
    parses, what the server answers, what [encoding/json] decodes) is a field
    of the record [World], over which every theorem quantifies. *)

From Stdlib Require Import ZArith String Ascii List Bool Lia DecimalString Permutation.
Import ListNotations.

Open Scope string_scope.
Open Scope Z_scope.

(** ** Strings and formatting *)

(** Go's [error] values are only ever printed: an error is its message. *)
Definition error := string.

(** [%d] of an [int]. *)
Definition showZ (z : Z) : string := NilZero.string_of_int (Z.to_int z).

(** [strings.Contains s sub], by trying every suffix of [s]. *)
Fixpoint contains (sub s : string) : bool :=
  prefix sub s ||
  match s with
  | EmptyString => false
  | String _ s' => contains sub s'
  end.

(** [bytes.Split(s, sep)] for a one-byte separator: all the pieces between
    separators, the empty ones included; never an empty list. *)
Fixpoint split (sep : ascii) (s : string) : list string :=
  match s with
  | EmptyString => [EmptyString]
  | String c s' =>
      if Ascii.eqb c sep then EmptyString :: split sep s'
      else match split sep s' with
           | h :: t => String c h :: t
           | [] => [String c EmptyString]
           end
  end.

(** [%v] of a [[]string]: the elements between brackets, separated by spaces. *)
Definition showStrings (l : list string) : string :=
  "[" ++ String.concat " " l ++ "]".

(** Insertion into a list of strings kept sorted and without repeats: the
    keys of a [map[string]bool] in the order [fmt] prints them. *)
Fixpoint insertKey (k : string) (l : list string) : list string :=
  match l with
  | [] => [k]
  | x :: l' =>
      match String.compare k x with
      | Eq => l
      | Lt => k :: l
      | Gt => x :: insertKey k l'
      end
  end.

(** [delete(m, k)] on the same representation. *)
Definition deleteKey (k : string) (l : list string) : list string :=
  filter (fun x => negb (String.eqb x k)) l.

(** [%v] of a [map[string]bool] all of whose values are [true]. *)
Definition showBoolMap (keys : list string) : string :=
  "map[" ++ String.concat " " (map (fun k => k ++ ":true") keys) ++ "]".

(** ** Data model *)

(** [type PRFile struct]: a file changed in a pull request. *)
Record PRFile := mkPRFile {
  Filename : string;
  Additions : Z;
  Deletions : Z;
  Changes : Z;
  Status : string;
  RawURL : string;
  BlobURL : string;
  Patch : string
}.

(** The anonymous struct [prEvent] of the handler, with its nested structs. *)
Record EventPullRequest := mkEventPullRequest { PullRequestNumber : Z }.
Record EventOwner := mkEventOwner { Login : string }.
Record EventRepository := mkEventRepository { Name : string; Owner : EventOwner }.
Record PullRequestEvent := mkEvent {
  Action : string;
  Number : Z;
  PullRequest : EventPullRequest;
  Repository : EventRepository
}.

(** What the handler observes of an [*http.Request]: the Content-Type header,
    the outcome of [r.ParseForm()] ([Some] is an error), the form values once
    parsed, and the outcome of [ioutil.ReadAll(r.Body)]. *)
Record Request := mkRequest {
  ContentType : string;
  ParseForm : option error;
  FormValue : string -> string;
  ReadBody : error + string
}.

(** An outbound request.  The body, when there is one, is a JSON object that
    [json.Marshal] made from a [map[string]string]: it is kept as the list of
    its entries in the order of encoding (sorted by key). *)
Record HttpRequest := mkHttpRequest {
  Method : string;
  URL : string;
  Header : list (string * string);
  Body : option (list (string * string))
}.

Record HttpResponse := mkHttpResponse {
  StatusCode : Z;
  RespBody : string
}.

(** [type App struct] of the second variant's report ([AppsJson] is the list
    of them); a Go map is the list of its entries. *)
Module AppsJson.
Record App := mkApp {
  Name : string;
  CMDBWhitelists : list (list (string * string));
  CMDBBlacklists : list (list (string * string));
  Whitelists : list string;
  Blacklists : list string
}.
End AppsJson.

(** ** The outside world *)

Record World := mkWorld {
  (** [os.Getenv] *)
  getenv : string -> string;
  (** the error of [http.NewRequest method url _], if any *)
  newRequestError : string -> string -> option error;
  (** [client.Do]: the answer may depend on the requests sent before *)
  clientDo : list HttpRequest -> HttpRequest -> error + HttpResponse;
  (** [json.Unmarshal] into the handler's event struct *)
  unmarshalEvent : string -> error + PullRequestEvent;
  (** [json.NewDecoder(body).Decode] into [[]PRFile] *)
  decodeFiles : string -> error + list PRFile;
  (** the same into the struct holding [head.sha]; the result is the SHA *)
  decodeHeadSHA : string -> error + string;
  (** [ioutil.ReadFile] *)
  readFile : string -> error + string;
  (** the [Apps] that [json.Unmarshal] leaves in an [AppsJson] (its error is
      dropped by the caller) *)
  unmarshalApps : string -> list AppsJson.App;
  (** the order in which [range] visits the keys of a map *)
  rangeKeys : list string -> list string
}.

(** ** State and monad *)

(** The [http.ResponseWriter]: the status code once the header is written,
    and the body written so far. *)
Record ResponseWriter := mkResponseWriter {
  wroteHeader : option Z;
  written : string
}.

(** The calls of the three API functions, recorded with what they returned. *)
Inductive ApiCall :=
| FetchPRFiles (owner repo : string) (n : Z)
| UpdatePRStatus (owner repo : string) (n : Z) (state description : string)
| ClosePullRequest (owner repo : string) (n : Z).

Inductive ApiResult :=
| Files (r : error + list PRFile)
| Err (e : option error).

Record St := mkSt {
  resp : ResponseWriter;
  sent : list HttpRequest;
  calls : list (ApiCall * ApiResult);
  logs : list string
}.

Definition M (A : Type) : Type := St -> A * St.

Definition ret {A} (a : A) : M A := fun s => (a, s).

Definition bind {A B} (m : M A) (k : A -> M B) : M B :=
  fun s => let (a, s') := m s in k a s'.

Declare Scope m_scope.
Delimit Scope m_scope with m.
Notation "x <- m ;; k" := (bind m (fun x => k))
  (at level 61, m at next level, right associativity) : m_scope.
Notation "m ;; k" := (bind m (fun _ => k))
  (at level 61, right associativity) : m_scope.
Open Scope m_scope.

(** [log.Printf]: the formatted message (without the logger's prefix). *)
Definition logPrintf (msg : string) : M unit :=
  fun s => (tt, mkSt (resp s) (sent s) (calls s) (logs s ++ [msg])).

(** [w.WriteHeader(code)]: only the first one counts. *)
Definition writeHeader (code : Z) : M unit :=
  fun s =>
    let w := resp s in
    let w' := match wroteHeader w with
              | Some _ => w
              | None => mkResponseWriter (Some code) (written w)
              end in
    (tt, mkSt w' (sent s) (calls s) (logs s)).

(** [fmt.Fprintf(w, ...)]: a write sends the header with 200 if none was
    sent, then the text. *)
Definition fprintf (msg : string) : M unit :=
  writeHeader 200 ;;
  fun s =>
    let w := resp s in
    (tt, mkSt (mkResponseWriter (wroteHeader w) (written w ++ msg))
              (sent s) (calls s) (logs s)).

(** [http.Error(w, msg, code)]. *)
Definition httpError (msg : string) (code : Z) : M unit :=
  writeHeader code ;;
  fprintf (msg ++ String "010" EmptyString).

(** [client.Do(req)] on the request that [http.NewRequest] and the
    [req.Header.Set] calls built: the request goes out and is remembered. *)
Definition doRequest (W : World) (req : HttpRequest) : M (error + HttpResponse) :=
  fun s =>
    (clientDo W (sent s) req,
     mkSt (resp s) (sent s ++ [req]) (calls s) (logs s)).

(** Records a call of an API function with its result. *)
Definition traced {A} (c : ApiCall) (res : A -> ApiResult) (m : M A) : M A :=
  a <- m ;;
  fun s => (a, mkSt (resp s) (sent s) (calls s ++ [(c, res a)]) (logs s)).

Definition initial : St := mkSt (mkResponseWriter None "") [] [] [].

(** The status code the client receives: the one written, or 200 when the
    handler returned without writing anything. *)
Definition statusCode (s : St) : Z :=
  match wroteHeader (resp s) with
  | Some c => c
  | None => 200
  end.

Definition responseBody (s : St) : string := written (resp s).

(** ** The API functions (the same text in both variants) *)

Definition acceptHeader : string * string :=
  ("Accept", "application/vnd.github.v3+json").

(** [fetchPRFiles]: the list of changed files of a pull request. *)
Definition fetchPRFiles (W : World) (owner repo : string) (n : Z)
  : M (error + list PRFile) :=
  traced (FetchPRFiles owner repo n) Files (
    let url := "https://api.github.com/repos/" ++ owner ++ "/" ++ repo
               ++ "/pulls/" ++ showZ n ++ "/files" in
    match newRequestError W "GET" url with
    | Some err => ret (inl err)
    | None =>
        r <- doRequest W (mkHttpRequest "GET" url [acceptHeader] None) ;;
        match r with
        | inl err => ret (inl err)
        | inr rsp =>
            if negb (StatusCode rsp =? 200) then
              ret (inl ("GitHub API error: " ++ RespBody rsp))
            else
              match decodeFiles W (RespBody rsp) with
              | inl err => ret (inl err)
              | inr files => ret (inr files)
              end
        end
    end).

(** [updatePRStatus]: looks the head commit up, then posts a status on it. *)
Definition updatePRStatus (W : World) (owner repo : string) (n : Z)
  (state description : string) : M (option error) :=
  traced (UpdatePRStatus owner repo n state description) Err (
    let prURL := "https://api.github.com/repos/" ++ owner ++ "/" ++ repo
                 ++ "/pulls/" ++ showZ n in
    let token := getenv W "GITHUB_TOKEN" in
    match newRequestError W "GET" prURL with
    | Some err => ret (Some err)
    | None =>
        r <- doRequest W (mkHttpRequest "GET" prURL
                            [("Authorization", "token " ++ token); acceptHeader]
                            None) ;;
        match r with
        | inl err => ret (Some err)
        | inr rsp =>
            if negb (StatusCode rsp =? 200) then
              ret (Some ("GitHub API error: " ++ RespBody rsp))
            else
              match decodeHeadSHA W (RespBody rsp) with
              | inl err => ret (Some err)
              | inr sha =>
                  let statusURL := "https://api.github.com/repos/" ++ owner
                                   ++ "/" ++ repo ++ "/statuses/" ++ sha in
                  let statusBody := [("context", "commitvalidator");
                                     ("description", description);
                                     ("state", state)] in
                  match newRequestError W "POST" statusURL with
                  | Some err => ret (Some err)
                  | None =>
                      r2 <- doRequest W (mkHttpRequest "POST" statusURL
                              [("Authorization", "token " ++ token);
                               acceptHeader;
                               ("Content-Type", "application/json")]
                              (Some statusBody)) ;;
                      match r2 with
                      | inl err => ret (Some err)
                      | inr rsp2 =>
                          if negb (StatusCode rsp2 =? 201) then
                            ret (Some ("GitHub API error: " ++ RespBody rsp2))
                          else
                            logPrintf ("PR #" ++ showZ n ++ " [" ++ owner ++ "/"
                                       ++ repo ++ "] status updated to " ++ state
                                       ++ ": " ++ description) ;;
                            ret None
                      end
                  end
              end
        end
    end).

(** [closePullRequest]: closes the pull request. *)
Definition closePullRequest (W : World) (owner repo : string) (n : Z)
  : M (option error) :=
  traced (ClosePullRequest owner repo n) Err (
    let token := getenv W "GITHUB_TOKEN" in
    let url := "https://api.github.com/repos/" ++ owner ++ "/" ++ repo
               ++ "/pulls/" ++ showZ n in
    match newRequestError W "PATCH" url with
    | Some err => ret (Some err)
    | None =>
        r <- doRequest W (mkHttpRequest "PATCH" url
                            [("Authorization", "token " ++ token);
                             acceptHeader;
                             ("Content-Type", "application/json")]
                            (Some [("state", "closed")])) ;;
        match r with
        | inl err => ret (Some err)
        | inr rsp =>
            if negb (StatusCode rsp =? 200) then
              ret (Some ("GitHub API error: " ++ RespBody rsp))
            else
              logPrintf ("PR #" ++ showZ n ++ " [" ++ owner ++ "/" ++ repo
                         ++ "] has been closed after validation.") ;;
              ret None
        end
    end).

(** ** The parts of the handler that the two variants share word for word *)

(** Lines 14-31: the payload is the form field [payload] of a form-encoded
    request and the whole body of any other; a form that does not parse and a
    body that cannot be read end the request with [http.Error]. *)
Inductive PayloadResult :=
| PayloadError (msg : string) (code : Z)
| PayloadOk (payload : string).

Definition readPayload (r : Request) : PayloadResult :=
  if String.eqb (ContentType r) "application/x-www-form-urlencoded" then
    match ParseForm r with
    | Some _ => PayloadError "Could not parse form" 400
    | None => PayloadOk (FormValue r "payload")
    end
  else
    match ReadBody r with
    | inl _ => PayloadError "Could not read request body" 500
    | inr body => PayloadOk body
    end.

(** The line written for each file, in the log (no newline) and in the
    response. *)
Definition fileLine (f : PRFile) : string :=
  "- " ++ Filename f ++ " (additions: " ++ showZ (Additions f)
  ++ ", deletions: " ++ showZ (Deletions f)
  ++ ", changes: " ++ showZ (Changes f) ++ ")".

Definition newline : string := String "010" EmptyString.

(** [for _, f := range xs { body }] *)
Fixpoint forEach {A} (xs : list A) (body : A -> M unit) : M unit :=
  match xs with
  | [] => ret tt
  | x :: xs' => body x ;; forEach xs' body
  end.

(** ** The first variant: [main.go] *)

Module MainGo.

(** [validatePR]: the loop returns [false] at a file named [forbidden.txt];
    the function returns [false] after the loop. *)
Fixpoint validatePR (files : list PRFile) : bool :=
  match files with
  | [] => false
  | f :: rest =>
      if String.eqb (Filename f) "forbidden.txt" then false
      else validatePR rest
  end.

(** [prWebhookHandler]. *)
Definition prWebhookHandler (W : World) (r : Request) : M unit :=
  match readPayload r with
  | PayloadError msg code => httpError msg code
  | PayloadOk payload =>
  match unmarshalEvent W payload with
  | inl err =>
      logPrintf ("Could not parse PR event: " ++ err) ;;
      logPrintf ("Raw payload: " ++ payload) ;;
      fprintf "Webhook received, but could not parse PR event"
  | inr prEvent =>
  if negb (String.eqb (Action prEvent) "opened") then
    logPrintf ("Ignoring PR event with action: " ++ Action prEvent) ;;
    fprintf ("Ignoring PR event with action: " ++ Action prEvent)
  else
  let prNumber := PullRequestNumber (PullRequest prEvent) in
  let prNumber := if prNumber =? 0 then Number prEvent else prNumber in
  if prNumber =? 0 then
    logPrintf "No PR number found in event" ;;
    fprintf "No PR number found"
  else
  let owner := Login (Owner (Repository prEvent)) in
  let repo := Name (Repository prEvent) in
  logPrintf ("PR #" ++ showZ prNumber ++ " opened for repo " ++ owner ++ "/" ++ repo) ;;
  fetched <- fetchPRFiles W owner repo prNumber ;;
  match fetched with
  | inl err =>
      logPrintf ("Error fetching PR files: " ++ err) ;;
      fprintf "Error fetching PR files"
  | inr files =>
  logPrintf ("Changed files in PR #" ++ showZ prNumber ++ ":") ;;
  forEach files (fun f => logPrintf (fileLine f)) ;;
  let validationPassed := validatePR files in
  let status := if negb validationPassed then "failure" else "success" in
  let description :=
    if negb validationPassed then "PR validation failed."
    else "PR validation passed." in
  err <- updatePRStatus W owner repo prNumber status description ;;
  match err with
  | Some e => logPrintf ("Error updating PR status: " ++ e)
  | None => ret tt
  end ;;
  (if negb validationPassed then
     err <- closePullRequest W owner repo prNumber ;;
     match err with
     | Some e => logPrintf ("Error closing PR: " ++ e)
     | None => logPrintf ("PR #" ++ showZ prNumber ++ " closed due to failed validation.")
     end
   else ret tt) ;;
  fprintf ("PR #" ++ showZ prNumber ++ " validation complete. Status: " ++ status ++ newline) ;;
  fprintf ("Files changed in PR:" ++ newline) ;;
  forEach files (fun f => fprintf (fileLine f ++ newline))
  end
  end
  end.

(** The state in which the handler leaves a fresh response writer. *)
Definition run (W : World) (r : Request) : St :=
  snd (prWebhookHandler W r initial).

End MainGo.

(** ** The second variant *)

Module Part000.

(** [validatePR]: [false] at a file named [forbidden.txt], [true] after the
    loop. *)
Fixpoint validatePR (files : list PRFile) : bool :=
  match files with
  | [] => true
  | f :: rest =>
      if String.eqb (Filename f) "forbidden.txt" then false
      else validatePR rest
  end.

(** [type ChangedFile struct], local to the handler. *)
Record ChangedFile := mkChangedFile {
  AppName : string;
  ModuleName : string;
  FileName : string;
  File : PRFile
}.

(** What the first loop of the report builds: [changedFiles], the keys of
    [changedAppsMap] and [appsJsonPatch]. *)
Record Scan := mkScan {
  changedFiles : list ChangedFile;
  changedAppsMap : list string;
  appsJsonPatch : string
}.

(** One turn of that loop. *)
Definition scanFile (acc : Scan) (f : PRFile) : Scan :=
  if String.eqb (Filename f) "apps.json" then
    mkScan (changedFiles acc) (changedAppsMap acc) (Patch f)
  else
    match split "/" (Filename f) with
    | appName :: moduleName :: fileName :: _ =>
        mkScan (changedFiles acc ++ [mkChangedFile appName moduleName fileName f])
               (insertKey appName (changedAppsMap acc))
               (appsJsonPatch acc)
    | _ => acc
    end.

Definition scanFiles (files : list PRFile) : Scan :=
  fold_left scanFile files (mkScan [] [] "").

Definition changedLine (cf : ChangedFile) : string :=
  "- " ++ AppName cf ++ "/" ++ ModuleName cf ++ "/" ++ FileName cf
  ++ " (additions: " ++ showZ (Additions (File cf))
  ++ ", deletions: " ++ showZ (Deletions (File cf))
  ++ ", changes: " ++ showZ (Changes (File cf)) ++ ")".

(** The values of the maps of a list, in order. *)
Definition valuesOf (ms : list (list (string * string))) : list string :=
  flat_map (map snd) ms.

(** [impactedServers] of an app: white lists, less black lists. *)
Definition impactedServers (app : AppsJson.App) : list string :=
  let m := fold_left (fun m s => insertKey s m) (AppsJson.Whitelists app) [] in
  let m := fold_left (fun m v => insertKey v m) (valuesOf (AppsJson.CMDBWhitelists app)) m in
  let m := fold_left (fun m s => deleteKey s m) (AppsJson.Blacklists app) m in
  fold_left (fun m v => deleteKey v m) (valuesOf (AppsJson.CMDBBlacklists app)) m.

(** Lines 87-183, the report on apps, modules and [apps.json]. *)
Definition enhancedReporting (W : World) (files : list PRFile) : M unit :=
  let scan := scanFiles files in
  let changedApps := rangeKeys W (changedAppsMap scan) in
  (if (0 <? Z.of_nat (length changedApps)) then
     logPrintf ("Apps changed in PR: " ++ showStrings changedApps) ;;
     fprintf ("Apps changed in PR: " ++ showStrings changedApps ++ newline) ;;
     logPrintf "Changed modules and files:" ;;
     fprintf ("Changed modules and files:" ++ newline) ;;
     forEach (changedFiles scan) (fun cf =>
       logPrintf (changedLine cf) ;;
       fprintf (changedLine cf ++ newline))
   else ret tt) ;;
  if negb (String.eqb (appsJsonPatch scan) "") then
    logPrintf ("apps.json changes:" ++ newline ++ appsJsonPatch scan) ;;
    fprintf ("apps.json changes:" ++ newline ++ appsJsonPatch scan ++ newline) ;;
    let apps :=
      match readFile W "/home/pardha/go/testcommit/apps.json" with
      | inr appsJsonBytes => unmarshalApps W appsJsonBytes
      | inl _ => []
      end in
    forEach apps (fun app =>
      logPrintf ("App: " ++ AppsJson.Name app) ;;
      fprintf ("App: " ++ AppsJson.Name app ++ newline) ;;
      logPrintf ("Impacted servers: " ++ showBoolMap (impactedServers app)) ;;
      fprintf ("Impacted servers: " ++ showBoolMap (impactedServers app) ++ newline))
  else ret tt.

(** [prWebhookHandler]. *)
Definition prWebhookHandler (W : World) (r : Request) : M unit :=
  match readPayload r with
  | PayloadError msg code => httpError msg code
  | PayloadOk payload =>
  match unmarshalEvent W payload with
  | inl err =>
      logPrintf ("Could not parse PR event: " ++ err) ;;
      logPrintf ("Raw payload: " ++ payload) ;;
      fprintf "Webhook received, but could not parse PR event"
  | inr prEvent =>
  if negb (String.eqb (Action prEvent) "opened")
     && negb (String.eqb (Action prEvent) "reopened") then
    logPrintf ("Ignoring PR event with action: " ++ Action prEvent) ;;
    fprintf ("Ignoring PR event with action: " ++ Action prEvent)
  else
  let prNumber := PullRequestNumber (PullRequest prEvent) in
  let prNumber := if prNumber =? 0 then Number prEvent else prNumber in
  if prNumber =? 0 then
    logPrintf "No PR number found in event" ;;
    fprintf "No PR number found"
  else
  let owner := Login (Owner (Repository prEvent)) in
  let repo := Name (Repository prEvent) in
  logPrintf ("PR #" ++ showZ prNumber ++ " opened for repo " ++ owner ++ "/" ++ repo) ;;
  fetched <- fetchPRFiles W owner repo prNumber ;;
  match fetched with
  | inl err =>
      logPrintf ("Error fetching PR files: " ++ err) ;;
      fprintf "Error fetching PR files"
  | inr files =>
  logPrintf ("Changed files in PR #" ++ showZ prNumber ++ ":") ;;
  forEach files (fun f => logPrintf (fileLine f)) ;;
  enhancedReporting W files ;;
  let validationPassed := validatePR files in
  let status := if negb validationPassed then "failure" else "success" in
  let description :=
    if negb validationPassed then "PR validation failed."
    else "PR validation passed." in
  err <- updatePRStatus W owner repo prNumber status description ;;
  match err with
  | Some e => logPrintf ("Error updating PR status: " ++ e)
  | None => ret tt
  end ;;
  (if negb validationPassed then
     err <- closePullRequest W owner repo prNumber ;;
     match err with
     | Some e => logPrintf ("Error closing PR: " ++ e)
     | None => logPrintf ("PR #" ++ showZ prNumber ++ " closed due to failed validation.")
     end
   else ret tt) ;;
  fprintf ("PR #" ++ showZ prNumber ++ " validation complete. Status: " ++ status ++ newline) ;;
  fprintf ("Files changed in PR:" ++ newline) ;;
  forEach files (fun f => fprintf (fileLine f ++ newline))
  end
  end
  end.

Definition run (W : World) (r : Request) : St :=
  snd (prWebhookHandler W r initial).

End Part000.

(** ** Vocabulary of the statements *)

(** The event a request decodes to, when its payload can be obtained and
    parses. *)
Definition decodeEvent (W : World) (r : Request) : option PullRequestEvent :=
  match readPayload r with
  | PayloadError _ _ => None
  | PayloadOk payload =>
      match unmarshalEvent W payload with
      | inl _ => None
      | inr ev => Some ev
      end
  end.

(** A form-encoded request whose [payload] field holds [j], and a request
    of another content type whose body is [j]. *)
Definition formEncoded (j : string) (r : Request) : Prop :=
  ContentType r = "application/x-www-form-urlencoded"
  /\ ParseForm r = None
  /\ FormValue r "payload" = j.

Definition rawJSON (j : string) (r : Request) : Prop :=
  ContentType r <> "application/x-www-form-urlencoded" /\ ReadBody r = inr j.

(** The payload of the request can be obtained: its form parses when it is
    form-encoded, its body can be read when it is not. *)
Definition payloadAvailable (r : Request) : Prop :=
  (ContentType r = "application/x-www-form-urlencoded" /\ ParseForm r = None)
  \/ (ContentType r <> "application/x-www-form-urlencoded"
      /\ exists body, ReadBody r = inr body).

(** The pull-request number of an event: the nested one unless it is 0. *)
Definition resolvedNumber (ev : PullRequestEvent) : Z :=
  if PullRequestNumber (PullRequest ev) =? 0 then Number ev
  else PullRequestNumber (PullRequest ev).

Definition ownerOf (ev : PullRequestEvent) : string := Login (Owner (Repository ev)).
Definition repoOf (ev : PullRequestEvent) : string := Name (Repository ev).

(** The API calls of a run, in order, without their results. *)
Definition callsOf (s : St) : list ApiCall := map fst (calls s).

(** A run that reached no API function and sent nothing. *)
Definition noOutboundCall (s : St) : Prop := calls s = [] /\ sent s = [].

(** Some file of the list is named [forbidden.txt]. *)
Definition hasForbidden (files : list PRFile) : bool :=
  existsb (fun f => String.eqb (Filename f) "forbidden.txt") files.

(** The accepted actions of the two variants. *)
Definition acceptedMain (action : string) : bool := String.eqb action "opened".

Definition acceptedPart (action : string) : bool :=
  String.eqb action "opened" || String.eqb action "reopened".

(** What [fetchPRFiles] returns for the pull request of [ev] when it is the
    first call to go out (nothing was sent before), and what [updatePRStatus]
    returns when it follows that fetch. *)
Definition fetchResult (W : World) (ev : PullRequestEvent) : error + list PRFile :=
  fst (fetchPRFiles W (ownerOf ev) (repoOf ev) (resolvedNumber ev) initial).

Definition statusResult (W : World) (ev : PullRequestEvent)
  (state description : string) : option error :=
  fst (updatePRStatus W (ownerOf ev) (repoOf ev) (resolvedNumber ev) state description
         (snd (fetchPRFiles W (ownerOf ev) (repoOf ev) (resolvedNumber ev) initial))).

(** The state and the description that the handlers report for a verdict of
    the validator. *)
Definition statusOf (validationPassed : bool) : string :=
  if negb validationPassed then "failure" else "success".

Definition descriptionOf (validationPassed : bool) : string :=
  if negb validationPassed then "PR validation failed." else "PR validation passed.".

(** The first line of the final response. *)
Definition completeLine (n : Z) (validationPassed : bool) : string :=
  "PR #" ++ showZ n ++ " validation complete. Status: "
  ++ statusOf validationPassed ++ newline.

(** How a run treats the number of the pull request of [ev]: the nested
    number when it is not 0, else the top-level one, is the one the files are
    fetched for; when both are 0 the run ends at "No PR number found". *)
Definition resolvesNumber (ev : PullRequestEvent) (s : St) : Prop :=
  (PullRequestNumber (PullRequest ev) <> 0 ->
   exists res rest,
     calls s = (FetchPRFiles (ownerOf ev) (repoOf ev)
                  (PullRequestNumber (PullRequest ev)), res) :: rest)
  /\ (PullRequestNumber (PullRequest ev) = 0 -> Number ev <> 0 ->
      exists res rest,
        calls s = (FetchPRFiles (ownerOf ev) (repoOf ev) (Number ev), res) :: rest)
  /\ (PullRequestNumber (PullRequest ev) = 0 -> Number ev = 0 ->
      responseBody s = "No PR number found" /\ noOutboundCall s).

(** The API calls of a run on the pull request of [ev] whose validation
    failed: the fetch, one status update with state "failure", one close. *)
Definition failureCalls (ev : PullRequestEvent) : list ApiCall :=
  [FetchPRFiles (ownerOf ev) (repoOf ev) (resolvedNumber ev);
   UpdatePRStatus (ownerOf ev) (repoOf ev) (resolvedNumber ev)
     "failure" "PR validation failed.";
   ClosePullRequest (ownerOf ev) (repoOf ev) (resolvedNumber ev)].

(** The same when the validation passed: the fetch and one status update
    with state "success". *)
Definition successCalls (ev : PullRequestEvent) : list ApiCall :=
  [FetchPRFiles (ownerOf ev) (repoOf ev) (resolvedNumber ev);
   UpdatePRStatus (ownerOf ev) (repoOf ev) (resolvedNumber ev)
     "success" "PR validation passed."].

(** A run in which the status update returned the error [err] and that went
    on all the same: the close call is made when the validation failed, and
    the final response is sent. *)
Definition survivesStatusError (ev : PullRequestEvent) (validationPassed : bool)
  (err : error) (s : St) : Prop :=
  In (UpdatePRStatus (ownerOf ev) (repoOf ev) (resolvedNumber ev)
        (statusOf validationPassed) (descriptionOf validationPassed),
      Err (Some err)) (calls s)
  /\ (validationPassed = false ->
      In (ClosePullRequest (ownerOf ev) (repoOf ev) (resolvedNumber ev)) (callsOf s))
  /\ contains ("PR #" ++ showZ (resolvedNumber ev) ++ " validation complete")
       (responseBody s) = true.

(** What a run of either handler leaves when the files were fetched: the
    calls with their results, the response and its status code. *)
Definition fetchedRun (W : World) (ev : PullRequestEvent) (files : list PRFile)
  (validationPassed : bool) (s : St) : Prop :=
  exists e pre post,
    calls s
    = (FetchPRFiles (ownerOf ev) (repoOf ev) (resolvedNumber ev), Files (inr files))
      :: (UpdatePRStatus (ownerOf ev) (repoOf ev) (resolvedNumber ev)
            (statusOf validationPassed) (descriptionOf validationPassed),
          Err (statusResult W ev (statusOf validationPassed)
                 (descriptionOf validationPassed)))
      :: (if validationPassed then []
          else [(ClosePullRequest (ownerOf ev) (repoOf ev) (resolvedNumber ev), Err e)])
    /\ responseBody s = pre ++ completeLine (resolvedNumber ev) validationPassed ++ post
    /\ statusCode s = 200.

(** ** The two handlers seen as one *)

(** Both handlers end with these lines (from the status update on), once the
    validator has given its verdict. *)
Definition report (W : World) (owner repo : string) (prNumber : Z)
  (files : list PRFile) (validationPassed : bool) : M unit :=
  err <- updatePRStatus W owner repo prNumber
           (statusOf validationPassed) (descriptionOf validationPassed) ;;
  match err with
  | Some e => logPrintf ("Error updating PR status: " ++ e)
  | None => ret tt
  end ;;
  (if negb validationPassed then
     err <- closePullRequest W owner repo prNumber ;;
     match err with
     | Some e => logPrintf ("Error closing PR: " ++ e)
     | None => logPrintf ("PR #" ++ showZ prNumber ++ " closed due to failed validation.")
     end
   else ret tt) ;;
  fprintf (completeLine prNumber validationPassed) ;;
  fprintf ("Files changed in PR:" ++ newline) ;;
  forEach files (fun f => fprintf (fileLine f ++ newline)).

(** What both handlers do with an accepted event whose number is not 0:
    [middle] is what comes between the listing of the files in the log and
    the validation (nothing in [main.go], the report in the second variant).
    That the handlers are instances of it is [main_run_accepted] and
    [part_run_accepted] below. *)
Definition process (W : World) (ev : PullRequestEvent)
  (middle : list PRFile -> M unit) (validate : list PRFile -> bool) : M unit :=
  logPrintf ("PR #" ++ showZ (resolvedNumber ev) ++ " opened for repo "
             ++ ownerOf ev ++ "/" ++ repoOf ev) ;;
  fetched <- fetchPRFiles W (ownerOf ev) (repoOf ev) (resolvedNumber ev) ;;
  match fetched with
  | inl err =>
      logPrintf ("Error fetching PR files: " ++ err) ;;
      fprintf "Error fetching PR files"
  | inr files =>
      logPrintf ("Changed files in PR #" ++ showZ (resolvedNumber ev) ++ ":") ;;
      forEach files (fun f => logPrintf (fileLine f)) ;;
      middle files ;;
      report W (ownerOf ev) (repoOf ev) (resolvedNumber ev) files (validate files)
  end.

(** ** Relations between the state before and after a computation *)

Definition preserves {A} (P : St -> St -> Prop) (m : M A) : Prop :=
  forall s, P s (snd (m s)).

(** The response writer is untouched. *)
Definition sameResp (s s' : St) : Prop := resp s' = resp s.

(** No API call, no outbound request. *)
Definition sameCalls (s s' : St) : Prop :=
  sent s' = sent s /\ calls s' = calls s.

(** The status code stays what it was going to be. *)
Definition sameStatus (s s' : St) : Prop := statusCode s' = statusCode s.

(** The body is only ever appended to. *)
Definition bodyGrows (s s' : St) : Prop :=
  exists out, responseBody s' = responseBody s ++ out.

(** ** Concrete requests and worlds *)

(** A file with nothing but a name. *)
Definition fileNamed (name : string) : PRFile :=
  mkPRFile name 0 0 0 "" "" "" "".

Definition quoted (s : string) : string :=
  String "034" EmptyString ++ s ++ String "034" EmptyString.

(** The event of the specification's end-to-end example, as JSON text. *)
Definition examplePayload : string :=
  "{" ++ quoted "action" ++ ":" ++ quoted "opened" ++ ","
  ++ quoted "pull_request" ++ ":{" ++ quoted "number" ++ ":42},"
  ++ quoted "repository" ++ ":{" ++ quoted "name" ++ ":" ++ quoted "repo" ++ ","
  ++ quoted "owner" ++ ":{" ++ quoted "login" ++ ":" ++ quoted "acme" ++ "}}}".

Definition eventOf (action : string) (number prNumber : Z) : PullRequestEvent :=
  mkEvent action number (mkEventPullRequest prNumber)
    (mkEventRepository "repo" (mkEventOwner "acme")).

Definition exampleEvent : PullRequestEvent := eventOf "opened" 0 42.

(** A world in which [examplePayload] decodes to [ev] and nothing else
    parses, the pull request has the files [files], every GET and PATCH is
    answered 200, and the POST of the status is answered 201 when [statusOk]
    and fails to connect otherwise. *)
Definition exampleWorld (ev : PullRequestEvent) (files : list PRFile)
  (statusOk : bool) : World :=
  mkWorld
    (fun _ => "secret")
    (fun _ _ => None)
    (fun _ req =>
       if String.eqb (Method req) "POST" then
         if statusOk then inr (mkHttpResponse 201 "{}")
         else inl "connection refused"
       else inr (mkHttpResponse 200 "{}"))
    (fun payload =>
       if String.eqb payload examplePayload then inr ev
       else inl "invalid character")
    (fun _ => inr files)
    (fun _ => inr "abc123")
    (fun _ => inl "no such file or directory")
    (fun _ => [])
    (fun keys => keys).

Definition rawRequest (body : string) : Request :=
  mkRequest "application/json" None (fun _ => "") (inr body).

Definition formRequest (payload : string) : Request :=
  mkRequest "application/x-www-form-urlencoded" None
    (fun key => if String.eqb key "payload" then payload else "")
    (inr "").

(** A form-encoded request whose body is not a well-formed form, and a
    request whose body cannot be read to the end. *)
Definition brokenFormRequest : Request :=
  mkRequest "application/x-www-form-urlencoded" (Some "invalid URL escape")
    (fun _ => "") (inr "").

Definition unreadableRequest : Request :=
  mkRequest "application/json" None (fun _ => "") (inl "unexpected EOF").

(** ** The requests of the API functions *)

(** The one request of [fetchPRFiles]. *)
Definition filesRequest (owner repo : string) (n : Z) : HttpRequest :=
  mkHttpRequest "GET"
    ("https://api.github.com/repos/" ++ owner ++ "/" ++ repo
     ++ "/pulls/" ++ showZ n ++ "/files")
    [acceptHeader] None.

(** The two requests of [updatePRStatus]: the lookup of the pull request and
    the status posted on the commit [sha]. *)
Definition lookupRequest (W : World) (owner repo : string) (n : Z) : HttpRequest :=
  mkHttpRequest "GET"
    ("https://api.github.com/repos/" ++ owner ++ "/" ++ repo
     ++ "/pulls/" ++ showZ n)
    [("Authorization", "token " ++ getenv W "GITHUB_TOKEN"); acceptHeader]
    None.

Definition statusRequest (W : World) (owner repo sha state description : string)
  : HttpRequest :=
  mkHttpRequest "POST"
    ("https://api.github.com/repos/" ++ owner ++ "/" ++ repo ++ "/statuses/" ++ sha)
    [("Authorization", "token " ++ getenv W "GITHUB_TOKEN");
     acceptHeader;
     ("Content-Type", "application/json")]
    (Some [("context", "commitvalidator");
           ("description", description);
           ("state", state)]).

(** The one request of [closePullRequest]. *)
Definition closeRequest (W : World) (owner repo : string) (n : Z) : HttpRequest :=
  mkHttpRequest "PATCH"
    ("https://api.github.com/repos/" ++ owner ++ "/" ++ repo
     ++ "/pulls/" ++ showZ n)
    [("Authorization", "token " ++ getenv W "GITHUB_TOKEN");
     acceptHeader;
     ("Content-Type", "application/json")]
    (Some [("state", "closed")]).

(** The request has a header named [key]. *)
Definition hasHeader (key : string) (rq : HttpRequest) : bool :=
  existsb (fun kv => String.eqb (fst kv) key) (Header rq).



(** From [s] to [s'] requests were sent, all of them satisfying [Q]. *)
Definition sendsOnly (Q : HttpRequest -> Prop) (s s' : St) : Prop :=
  exists reqs, sent s' = (sent s ++ reqs)%list /\ Forall Q reqs.

(** The end of the final response: the list of the changed files. *)
Definition fileListing (files : list PRFile) : string :=
  "Files changed in PR:" ++ newline
  ++ String.concat "" (map (fun f => fileLine f ++ newline) files).

(** A file of the pull request that the report of the second variant takes
    up: it is named [apps.json], or its path has three segments or more. *)
Definition reported (f : PRFile) : bool :=
  String.eqb (Filename f) "apps.json"
  || (3 <=? length (split "/" (Filename f)))%nat.

(** A world like [exampleWorld], except that the server answers every
    request with the status [code] and the body [body]. *)
Definition answeringWorld (code : Z) (body : string) : World :=
  mkWorld
    (fun _ => "secret")
    (fun _ _ => None)
    (fun _ _ => inr (mkHttpResponse code body))
    (fun payload =>
       if String.eqb payload examplePayload then inr exampleEvent
       else inl "invalid character")
    (fun _ => inl "unexpected end of JSON input")
    (fun _ => inr "abc123")
    (fun _ => inl "no such file or directory")
    (fun _ => [])
    (fun keys => keys).

(** * Properties of the validator *)

Lemma hasForbidden_true_iff (files : list PRFile) :
  hasForbidden files = true <->
  exists f, In f files /\ Filename f = "forbidden.txt".
Proof.
  unfold hasForbidden. rewrite existsb_exists.
  split; intros [f [Hin Hf]]; exists f; split; trivial;
    now apply String.eqb_eq.
Qed.

Lemma hasForbidden_false_iff (files : list PRFile) :
  hasForbidden files = false <->
  forall f, In f files -> Filename f <> "forbidden.txt".
Proof.
  rewrite <- Bool.not_true_iff_false, hasForbidden_true_iff. split.
  - intros H f Hin Hf. apply H. now exists f.
  - intros H [f [Hin Hf]]. now apply (H f).
Qed.

(** In [main.go] the validator fails every list. *)
Lemma main_validatePR_false (files : list PRFile) :
  MainGo.validatePR files = false.
Proof.
  induction files as [|f rest IH]; simpl; trivial.
  now destruct (String.eqb (Filename f) "forbidden.txt").
Qed.

(** In the second variant it fails exactly the lists with a forbidden file. *)
Lemma part_validatePR_spec (files : list PRFile) :
  Part000.validatePR files = negb (hasForbidden files).
Proof.
  induction files as [|f rest IH]; simpl; trivial.
  now destruct (String.eqb (Filename f) "forbidden.txt").
Qed.

(** C1, evaluated where the code departs from it: on the one-file list
    [ok.txt], which holds no forbidden file, the validator of [main.go]
    returns the fail outcome, while the second variant's returns the pass
    outcome the rule asks for. *)
Theorem validatePR_ok_txt :
  hasForbidden [fileNamed "ok.txt"] = false
  /\ MainGo.validatePR [fileNamed "ok.txt"] = false
  /\ Part000.validatePR [fileNamed "ok.txt"] = true
  /\ MainGo.validatePR [] = false
  /\ Part000.validatePR [] = true.
Proof. repeat split. Qed.

(** C5: the validators of the two variants both fail a list that holds a
    file named [forbidden.txt], and differ on every other list, where
    [main.go] fails and the second variant passes. *)
Theorem validatePR_variants (files : list PRFile) :
  ((exists f, In f files /\ Filename f = "forbidden.txt") ->
   MainGo.validatePR files = false /\ Part000.validatePR files = false)
  /\
  ((forall f, In f files -> Filename f <> "forbidden.txt") ->
   MainGo.validatePR files = false /\ Part000.validatePR files = true).
Proof.
  split; intros H; split; try apply main_validatePR_false;
    rewrite part_validatePR_spec.
  - apply hasForbidden_true_iff in H. now rewrite H.
  - apply hasForbidden_false_iff in H. now rewrite H.
Qed.

Lemma validatePR_variants_witness :
  (MainGo.validatePR [fileNamed "a.go"; fileNamed "forbidden.txt"] = false
   /\ Part000.validatePR [fileNamed "a.go"; fileNamed "forbidden.txt"] = false)
  /\
  (MainGo.validatePR [fileNamed "a.go"; fileNamed "b.go"] = false
   /\ Part000.validatePR [fileNamed "a.go"; fileNamed "b.go"] = true).
Proof.
  split.
  - apply (proj1 (validatePR_variants [fileNamed "a.go"; fileNamed "forbidden.txt"])).
    exists (fileNamed "forbidden.txt"). split; [right; left|]; reflexivity.
  - apply (proj2 (validatePR_variants [fileNamed "a.go"; fileNamed "b.go"])).
    intros f [<-|[<-|[]]]; discriminate.
Defined.

(** C10: the validator reads nothing but the file names: two lists of the
    same length whose files have the same names, one by one, get the same
    outcome, whatever their other fields are (in both variants). *)
Theorem validatePR_filenames_only (files1 files2 : list PRFile) :
  Forall2 (fun f1 f2 => Filename f1 = Filename f2) files1 files2 ->
  MainGo.validatePR files1 = MainGo.validatePR files2
  /\ Part000.validatePR files1 = Part000.validatePR files2.
Proof.
  induction 1 as [|f1 f2 rest1 rest2 Hname _ [IHm IHp]]; simpl.
  - split; reflexivity.
  - rewrite Hname. destruct (String.eqb (Filename f2) "forbidden.txt"); auto.
Qed.

Lemma validatePR_filenames_only_witness :
  MainGo.validatePR [mkPRFile "forbidden.txt" 1 2 3 "added" "r" "b" "+x"]
  = MainGo.validatePR [mkPRFile "forbidden.txt" 9 8 17 "removed" "" "" ""]
  /\ Part000.validatePR [mkPRFile "forbidden.txt" 1 2 3 "added" "r" "b" "+x"]
     = Part000.validatePR [mkPRFile "forbidden.txt" 9 8 17 "removed" "" "" ""].
Proof.
  apply (validatePR_filenames_only
           [mkPRFile "forbidden.txt" 1 2 3 "added" "r" "b" "+x"]
           [mkPRFile "forbidden.txt" 9 8 17 "removed" "" "" ""]).
  constructor; [reflexivity | constructor].
Defined.

(** * Reasoning about runs *)

Lemma bind_run {A B} (m : M A) (k : A -> M B) (s : St) :
  bind m k s = k (fst (m s)) (snd (m s)).
Proof. unfold bind. now destruct (m s). Qed.

Lemma contains_prefix (sub post : string) : prefix sub (sub ++ post) = true.
Proof.
  induction sub as [|c sub IH]; simpl.
  - now destruct post.
  - destruct (ascii_dec c c) as [_|Hc]; [exact IH | now elim Hc].
Qed.

Lemma contains_unfold (sub s : string) :
  contains sub s
  = prefix sub s
    || match s with EmptyString => false | String _ s' => contains sub s' end.
Proof. destruct s; reflexivity. Qed.

Lemma contains_app (pre sub post : string) :
  contains sub (pre ++ sub ++ post) = true.
Proof.
  induction pre as [|c pre IH].
  - change ("" ++ sub ++ post) with (sub ++ post).
    rewrite contains_unfold, contains_prefix. reflexivity.
  - change (String c pre ++ sub ++ post) with (String c (pre ++ sub ++ post)).
    rewrite contains_unfold, IH. apply orb_true_r.
Qed.

Lemma append_assoc (a b c : string) : (a ++ b) ++ c = a ++ b ++ c.
Proof. induction a as [|x a IH]; simpl; [reflexivity | now rewrite IH]. Qed.

Lemma append_nil_r (a : string) : a ++ "" = a.
Proof. induction a as [|x a IH]; simpl; [reflexivity | now rewrite IH]. Qed.

(** ** The API functions: what a call leaves behind *)

Lemma fetchPRFiles_run (W : World) (o r : string) (n : Z) (s : St) :
  exists reqs,
    snd (fetchPRFiles W o r n s)
    = mkSt (resp s) (sent s ++ reqs)
        (calls s ++ [(FetchPRFiles o r n, Files (fst (fetchPRFiles W o r n s)))])
        (logs s).
Proof.
  unfold fetchPRFiles, traced, bind, doRequest, ret.
  destruct (newRequestError W "GET" _).
  - exists []. simpl. now rewrite app_nil_r.
  - eexists [_].
    destruct (clientDo W _ _) as [e|rsp]; [reflexivity|].
    destruct (negb (StatusCode rsp =? 200)); [reflexivity|].
    destruct (decodeFiles W _); reflexivity.
Qed.

Lemma fetchPRFiles_result (W : World) (o r : string) (n : Z) (s s' : St) :
  sent s = sent s' ->
  fst (fetchPRFiles W o r n s) = fst (fetchPRFiles W o r n s').
Proof.
  intros Hs. unfold fetchPRFiles, traced, bind, doRequest, ret.
  destruct (newRequestError W "GET" _); [reflexivity|].
  rewrite Hs.
  destruct (clientDo W _ _) as [e|rsp]; [reflexivity|].
  destruct (negb (StatusCode rsp =? 200)); [reflexivity|].
  destruct (decodeFiles W _); reflexivity.
Qed.

Lemma updatePRStatus_run (W : World) (o r : string) (n : Z) (st d : string) (s : St) :
  exists reqs lg,
    snd (updatePRStatus W o r n st d s)
    = mkSt (resp s) (sent s ++ reqs)
        (calls s ++ [(UpdatePRStatus o r n st d, Err (fst (updatePRStatus W o r n st d s)))])
        (logs s ++ lg).
Proof.
  unfold updatePRStatus, traced, bind, doRequest, ret, logPrintf.
  destruct (newRequestError W "GET" _).
  { exists [], []. simpl. now rewrite !app_nil_r. }
  destruct (clientDo W _ _) as [e|rsp].
  { eexists [_], []. simpl. now rewrite app_nil_r. }
  destruct (negb (StatusCode rsp =? 200)).
  { eexists [_], []. simpl. now rewrite app_nil_r. }
  destruct (decodeHeadSHA W _) as [e|sha].
  { eexists [_], []. simpl. now rewrite app_nil_r. }
  destruct (newRequestError W "POST" _).
  { eexists [_], []. simpl. now rewrite app_nil_r. }
  simpl.
  destruct (clientDo W _ _) as [e|rsp2].
  { eexists [_; _], []. simpl. now rewrite app_nil_r, <- app_assoc. }
  destruct (negb (StatusCode rsp2 =? 201)).
  { eexists [_; _], []. simpl. now rewrite app_nil_r, <- app_assoc. }
  eexists [_; _], [_]. simpl. now rewrite <- app_assoc.
Qed.

Lemma updatePRStatus_result (W : World) (o r : string) (n : Z) (st d : string) (s s' : St) :
  sent s = sent s' ->
  fst (updatePRStatus W o r n st d s) = fst (updatePRStatus W o r n st d s').
Proof.
  intros Hs. unfold updatePRStatus, traced, bind, doRequest, ret, logPrintf.
  destruct (newRequestError W "GET" _); [reflexivity|].
  rewrite Hs.
  destruct (clientDo W _ _) as [e|rsp]; [reflexivity|].
  destruct (negb (StatusCode rsp =? 200)); [reflexivity|].
  destruct (decodeHeadSHA W _) as [e|sha]; [reflexivity|].
  destruct (newRequestError W "POST" _); [reflexivity|].
  simpl.
  destruct (clientDo W _ _) as [e|rsp2]; [reflexivity|].
  destruct (negb (StatusCode rsp2 =? 201)); reflexivity.
Qed.

Lemma closePullRequest_run (W : World) (o r : string) (n : Z) (s : St) :
  exists reqs lg,
    snd (closePullRequest W o r n s)
    = mkSt (resp s) (sent s ++ reqs)
        (calls s ++ [(ClosePullRequest o r n, Err (fst (closePullRequest W o r n s)))])
        (logs s ++ lg).
Proof.
  unfold closePullRequest, traced, bind, doRequest, ret, logPrintf.
  destruct (newRequestError W "PATCH" _).
  { exists [], []. simpl. now rewrite !app_nil_r. }
  destruct (clientDo W _ _) as [e|rsp].
  { eexists [_], []. simpl. now rewrite app_nil_r. }
  destruct (negb (StatusCode rsp =? 200)).
  { eexists [_], []. simpl. now rewrite app_nil_r. }
  eexists [_], [_]. reflexivity.
Qed.

Lemma fetchPRFiles_sent (W : World) (o r : string) (n : Z) (s s' : St) :
  sent s = sent s' ->
  sent (snd (fetchPRFiles W o r n s)) = sent (snd (fetchPRFiles W o r n s')).
Proof.
  intros Hs. unfold fetchPRFiles, traced, bind, doRequest, ret.
  destruct (newRequestError W "GET" _); [exact Hs|].
  rewrite Hs.
  destruct (clientDo W _ _) as [e|rsp]; [reflexivity|].
  destruct (negb (StatusCode rsp =? 200)); [reflexivity|].
  destruct (decodeFiles W _); reflexivity.
Qed.

(** ** Computations that preserve a relation *)

Section Preserves.

Context (P : St -> St -> Prop).
Hypothesis P_refl : forall s, P s s.
Hypothesis P_trans : forall s1 s2 s3, P s1 s2 -> P s2 s3 -> P s1 s3.

Lemma preserves_ret {A} (a : A) : preserves P (ret a).
Proof. intros s. apply P_refl. Qed.

Lemma preserves_bind {A B} (m : M A) (k : A -> M B) :
  preserves P m -> (forall a, preserves P (k a)) -> preserves P (bind m k).
Proof.
  intros Hm Hk s. rewrite bind_run.
  apply P_trans with (snd (m s)); [apply Hm | apply Hk].
Qed.

Lemma preserves_forEach {A} (xs : list A) (body : A -> M unit) :
  (forall x, preserves P (body x)) -> preserves P (forEach xs body).
Proof.
  intros Hbody. induction xs as [|x xs IH]; simpl.
  - apply preserves_ret.
  - apply preserves_bind; [apply Hbody | intros _; exact IH].
Qed.

End Preserves.

Lemma sameResp_refl s : sameResp s s.
Proof. reflexivity. Qed.

Lemma sameResp_trans s1 s2 s3 : sameResp s1 s2 -> sameResp s2 s3 -> sameResp s1 s3.
Proof. unfold sameResp. congruence. Qed.

Lemma sameCalls_refl s : sameCalls s s.
Proof. split; reflexivity. Qed.

Lemma sameCalls_trans s1 s2 s3 : sameCalls s1 s2 -> sameCalls s2 s3 -> sameCalls s1 s3.
Proof. unfold sameCalls. intros [? ?] [? ?]. split; congruence. Qed.

Lemma sameStatus_refl s : sameStatus s s.
Proof. reflexivity. Qed.

Lemma sameStatus_trans s1 s2 s3 : sameStatus s1 s2 -> sameStatus s2 s3 -> sameStatus s1 s3.
Proof. unfold sameStatus. congruence. Qed.

Lemma bodyGrows_refl s : bodyGrows s s.
Proof. exists "". now rewrite append_nil_r. Qed.

Lemma bodyGrows_trans s1 s2 s3 : bodyGrows s1 s2 -> bodyGrows s2 s3 -> bodyGrows s1 s3.
Proof.
  intros [o1 H1] [o2 H2]. exists (o1 ++ o2).
  now rewrite H2, H1, append_assoc.
Qed.

Lemma sameResp_sameStatus {A} (m : M A) : preserves sameResp m -> preserves sameStatus m.
Proof. intros H s. unfold sameStatus, statusCode. now rewrite (H s). Qed.

Lemma sameResp_bodyGrows {A} (m : M A) : preserves sameResp m -> preserves bodyGrows m.
Proof.
  intros H s. exists "". unfold responseBody. now rewrite (H s), append_nil_r.
Qed.

(** *** The primitives *)

Lemma logPrintf_sameResp msg : preserves sameResp (logPrintf msg).
Proof. intros s. reflexivity. Qed.

Lemma logPrintf_sameCalls msg : preserves sameCalls (logPrintf msg).
Proof. intros s. split; reflexivity. Qed.

Lemma fprintf_sameCalls msg : preserves sameCalls (fprintf msg).
Proof. intros s. split; reflexivity. Qed.

Lemma fprintf_sameStatus msg : preserves sameStatus (fprintf msg).
Proof.
  intros s. unfold sameStatus, statusCode, fprintf, writeHeader, bind. simpl.
  destruct (wroteHeader (resp s)) eqn:E; simpl; now rewrite ?E.
Qed.

Lemma fprintf_body msg s :
  responseBody (snd (fprintf msg s)) = responseBody s ++ msg.
Proof.
  unfold responseBody, fprintf, writeHeader, bind. simpl.
  now destruct (wroteHeader (resp s)).
Qed.

Lemma fprintf_bodyGrows msg : preserves bodyGrows (fprintf msg).
Proof. intros s. exists msg. apply fprintf_body. Qed.

Lemma fetchPRFiles_sameResp W o r n : preserves sameResp (fetchPRFiles W o r n).
Proof. intros s. destruct (fetchPRFiles_run W o r n s) as [reqs ->]. reflexivity. Qed.

Lemma updatePRStatus_sameResp W o r n st d :
  preserves sameResp (updatePRStatus W o r n st d).
Proof.
  intros s. destruct (updatePRStatus_run W o r n st d s) as (reqs & lg & ->).
  reflexivity.
Qed.

Lemma closePullRequest_sameResp W o r n : preserves sameResp (closePullRequest W o r n).
Proof.
  intros s. destruct (closePullRequest_run W o r n s) as (reqs & lg & ->).
  reflexivity.
Qed.

Lemma fetchPRFiles_calls W o r n s :
  calls (snd (fetchPRFiles W o r n s))
  = (calls s ++ [(FetchPRFiles o r n, Files (fst (fetchPRFiles W o r n s)))])%list.
Proof. destruct (fetchPRFiles_run W o r n s) as [reqs ->]. reflexivity. Qed.

Lemma updatePRStatus_calls W o r n st d s :
  calls (snd (updatePRStatus W o r n st d s))
  = (calls s ++ [(UpdatePRStatus o r n st d, Err (fst (updatePRStatus W o r n st d s)))])%list.
Proof. destruct (updatePRStatus_run W o r n st d s) as (reqs & lg & ->). reflexivity. Qed.

Lemma closePullRequest_calls W o r n s :
  calls (snd (closePullRequest W o r n s))
  = (calls s ++ [(ClosePullRequest o r n, Err (fst (closePullRequest W o r n s)))])%list.
Proof. destruct (closePullRequest_run W o r n s) as (reqs & lg & ->). reflexivity. Qed.

Create HintDb run discriminated.

#[local] Hint Resolve sameResp_refl sameResp_trans sameCalls_refl sameCalls_trans
  sameStatus_refl sameStatus_trans bodyGrows_refl bodyGrows_trans : run.
#[local] Hint Resolve logPrintf_sameResp logPrintf_sameCalls fprintf_sameCalls
  fprintf_sameStatus fprintf_bodyGrows fetchPRFiles_sameResp
  updatePRStatus_sameResp closePullRequest_sameResp
  sameResp_sameStatus sameResp_bodyGrows : run.

(** Splits a goal [preserves P m] along the structure of [m]. *)
Ltac preserves_step :=
  match goal with
  | |- preserves _ (bind _ _) =>
      apply preserves_bind; [solve [eauto with run] | | intros ?]
  | |- preserves _ (ret _) => apply preserves_ret; solve [auto with run]
  | |- preserves _ (forEach _ _) =>
      apply preserves_forEach;
      [solve [auto with run] | solve [eauto with run] | intros ?]
  | |- preserves _ (match ?x with _ => _ end) => destruct x
  | |- preserves _ _ => solve [auto with run]
  end.

Ltac preserves_auto := cbv zeta; repeat preserves_step.

Lemma enhancedReporting_sameCalls W files :
  preserves sameCalls (Part000.enhancedReporting W files).
Proof. unfold Part000.enhancedReporting. preserves_auto. Qed.

Lemma enhancedReporting_sameStatus W files :
  preserves sameStatus (Part000.enhancedReporting W files).
Proof. unfold Part000.enhancedReporting. preserves_auto. Qed.

Lemma enhancedReporting_bodyGrows W files :
  preserves bodyGrows (Part000.enhancedReporting W files).
Proof. unfold Part000.enhancedReporting. preserves_auto. Qed.

#[local] Hint Resolve enhancedReporting_sameCalls enhancedReporting_sameStatus
  enhancedReporting_bodyGrows : run.

(** ** The last lines of the handlers *)

Lemma report_run (W : World) (o r : string) (n : Z) (files : list PRFile)
  (vp : bool) (s : St) :
  exists e post,
    calls (snd (report W o r n files vp s))
    = (calls s
       ++ (UpdatePRStatus o r n (statusOf vp) (descriptionOf vp),
           Err (fst (updatePRStatus W o r n (statusOf vp) (descriptionOf vp) s)))
          :: (if vp then [] else [(ClosePullRequest o r n, Err e)]))%list
    /\ responseBody (snd (report W o r n files vp s))
       = responseBody s ++ completeLine n vp ++ post
    /\ statusCode (snd (report W o r n files vp s)) = statusCode s.
Proof.
  unfold report. rewrite bind_run.
  set (e1 := fst (updatePRStatus W o r n (statusOf vp) (descriptionOf vp) s)).
  set (s1 := snd (updatePRStatus W o r n (statusOf vp) (descriptionOf vp) s)).
  assert (C1 : calls s1 = (calls s ++ [(UpdatePRStatus o r n (statusOf vp) (descriptionOf vp), Err e1)])%list)
    by apply updatePRStatus_calls.
  assert (R1 : resp s1 = resp s) by apply updatePRStatus_sameResp.
  rewrite bind_run.
  set (s2 := snd (match e1 with
                  | Some e => logPrintf ("Error updating PR status: " ++ e)
                  | None => ret tt
                  end s1)).
  assert (C2 : calls s2 = calls s1 /\ resp s2 = resp s1)
    by (subst s2; destruct e1; split; reflexivity).
  destruct C2 as [C2 R2].
  rewrite bind_run.
  set (s3 := snd ((if negb vp then _ else ret tt) s2)).
  assert (H3 : exists e, calls s3 = (calls s2 ++ (if vp then [] else [(ClosePullRequest o r n, Err e)]))%list
                         /\ resp s3 = resp s2).
  { subst s3. destruct vp; simpl.
    - exists None. now rewrite app_nil_r.
    - rewrite bind_run.
      exists (fst (closePullRequest W o r n s2)).
      set (e3 := fst (closePullRequest W o r n s2)).
      assert (C := closePullRequest_calls W o r n s2).
      assert (R := closePullRequest_sameResp W o r n s2).
      fold e3 in C. unfold sameResp in R.
      destruct e3; simpl; rewrite C, R; split; reflexivity. }
  destruct H3 as (e3 & C3 & R3).
  rewrite bind_run.
  set (s4 := snd (fprintf (completeLine n vp) s3)).
  set (k := fprintf ("Files changed in PR:" ++ newline) ;;
            forEach files (fun f => fprintf (fileLine f ++ newline))).
  assert (Kc : preserves sameCalls k) by (subst k; preserves_auto).
  assert (Ks : preserves sameStatus k) by (subst k; preserves_auto).
  assert (Kb : preserves bodyGrows k) by (subst k; preserves_auto).
  change (snd (fprintf (completeLine n vp) s3)) with s4.
  destruct (Kb s4) as [post Hpost].
  exists e3, post. split; [|split].
  - rewrite (proj2 (Kc s4)). subst s4.
    rewrite (proj2 (fprintf_sameCalls _ s3)), C3, C2, C1, <- app_assoc.
    reflexivity.
  - rewrite Hpost. subst s4. rewrite fprintf_body, append_assoc.
    unfold responseBody. now rewrite R3, R2, R1.
  - rewrite (Ks s4). subst s4. rewrite (fprintf_sameStatus _ s3).
    unfold statusCode. now rewrite R3, R2, R1.
Qed.

(** * The handlers *)

Lemma decodeEvent_Some (W : World) (r : Request) (ev : PullRequestEvent) :
  decodeEvent W r = Some ev ->
  exists payload, readPayload r = PayloadOk payload /\ unmarshalEvent W payload = inr ev.
Proof.
  unfold decodeEvent. destruct (readPayload r) as [|payload]; [discriminate|].
  destruct (unmarshalEvent W payload) as [|ev'] eqn:E; [discriminate|].
  intros [= <-]. now exists payload.
Qed.

Lemma main_run_accepted (W : World) (r : Request) (ev : PullRequestEvent) :
  decodeEvent W r = Some ev ->
  acceptedMain (Action ev) = true ->
  resolvedNumber ev <> 0 ->
  MainGo.run W r
  = snd (process W ev (fun _ => ret tt) MainGo.validatePR initial).
Proof.
  intros Hd Ha Hn.
  destruct (decodeEvent_Some _ _ _ Hd) as (p & Hp & Hu).
  unfold MainGo.run, MainGo.prWebhookHandler.
  rewrite Hp, Hu. unfold acceptedMain in Ha. rewrite Ha.
  cbv zeta.
  change (if PullRequestNumber (PullRequest ev) =? 0 then Number ev
          else PullRequestNumber (PullRequest ev)) with (resolvedNumber ev).
  rewrite (proj2 (Z.eqb_neq _ _) Hn).
  reflexivity.
Qed.

Lemma part_run_accepted (W : World) (r : Request) (ev : PullRequestEvent) :
  decodeEvent W r = Some ev ->
  acceptedPart (Action ev) = true ->
  resolvedNumber ev <> 0 ->
  Part000.run W r
  = snd (process W ev (Part000.enhancedReporting W) Part000.validatePR initial).
Proof.
  intros Hd Ha Hn.
  destruct (decodeEvent_Some _ _ _ Hd) as (p & Hp & Hu).
  unfold Part000.run, Part000.prWebhookHandler.
  rewrite Hp, Hu. unfold acceptedPart in Ha.
  rewrite <- negb_orb, Ha.
  cbv zeta.
  change (if PullRequestNumber (PullRequest ev) =? 0 then Number ev
          else PullRequestNumber (PullRequest ev)) with (resolvedNumber ev).
  rewrite (proj2 (Z.eqb_neq _ _) Hn).
  reflexivity.
Qed.

Section Process.

Context (W : World) (ev : PullRequestEvent).
Context (middle : list PRFile -> M unit) (validate : list PRFile -> bool).
Hypothesis middle_sameCalls : forall files, preserves sameCalls (middle files).
Hypothesis middle_sameStatus : forall files, preserves sameStatus (middle files).
Hypothesis middle_bodyGrows : forall files, preserves bodyGrows (middle files).

Let o := ownerOf ev.
Let rp := repoOf ev.
Let n := resolvedNumber ev.

Lemma process_fetch_failed (err : error) :
  fetchResult W ev = inl err ->
  calls (snd (process W ev middle validate initial))
  = [(FetchPRFiles o rp n, Files (inl err))]
  /\ responseBody (snd (process W ev middle validate initial))
     = "Error fetching PR files"
  /\ statusCode (snd (process W ev middle validate initial)) = 200.
Proof.
  intros Hf. unfold process. rewrite !bind_run.
  set (s0 := snd (logPrintf _ initial)).
  assert (E : fst (fetchPRFiles W o rp n s0) = inl err)
    by (rewrite <- Hf; apply fetchPRFiles_result; reflexivity).
  fold o rp n. rewrite E.
  assert (C := fetchPRFiles_calls W o rp n s0).
  assert (R := fetchPRFiles_sameResp W o rp n s0).
  rewrite E in C. unfold sameResp in R.
  set (s1 := snd (fetchPRFiles W o rp n s0)) in *.
  rewrite bind_run.
  repeat split.
  - rewrite (proj2 (fprintf_sameCalls _ _)). exact C.
  - rewrite fprintf_body. unfold responseBody. simpl. now rewrite R.
  - rewrite fprintf_sameStatus. unfold statusCode. simpl. now rewrite R.
Qed.

Lemma process_fetched (files : list PRFile) :
  fetchResult W ev = inr files ->
  exists e pre post,
    calls (snd (process W ev middle validate initial))
    = ((FetchPRFiles o rp n, Files (inr files))
       :: (UpdatePRStatus o rp n (statusOf (validate files)) (descriptionOf (validate files)),
           Err (statusResult W ev (statusOf (validate files)) (descriptionOf (validate files))))
       :: (if validate files then [] else [(ClosePullRequest o rp n, Err e)]))%list
    /\ responseBody (snd (process W ev middle validate initial))
       = pre ++ completeLine n (validate files) ++ post
    /\ statusCode (snd (process W ev middle validate initial)) = 200.
Proof.
  intros Hf. unfold process. rewrite !bind_run.
  set (s0 := snd (logPrintf _ initial)).
  assert (E : fst (fetchPRFiles W o rp n s0) = inr files)
    by (rewrite <- Hf; apply fetchPRFiles_result; reflexivity).
  fold o rp n. rewrite E.
  assert (C := fetchPRFiles_calls W o rp n s0).
  assert (R := fetchPRFiles_sameResp W o rp n s0).
  assert (S := fetchPRFiles_sent W o rp n s0 initial eq_refl).
  rewrite E in C. unfold sameResp in R.
  set (s1 := snd (fetchPRFiles W o rp n s0)) in *.
  rewrite !bind_run.
  set (sa := snd (logPrintf _ s1)).
  set (sb := snd (forEach files _ sa)).
  set (s2 := snd (middle files sb)).
  assert (Hc : sameCalls s1 s2).
  { apply sameCalls_trans with sb; [apply sameCalls_trans with sa|].
    - apply logPrintf_sameCalls.
    - apply (preserves_forEach sameCalls sameCalls_refl sameCalls_trans).
      auto with run.
    - apply middle_sameCalls. }
  assert (Hs : sameStatus s1 s2).
  { apply sameStatus_trans with sb; [apply sameStatus_trans with sa|].
    - apply sameResp_sameStatus, logPrintf_sameResp.
    - apply (preserves_forEach sameStatus sameStatus_refl sameStatus_trans).
      auto with run.
    - apply middle_sameStatus. }
  assert (Hb : bodyGrows s1 s2).
  { apply bodyGrows_trans with sb; [apply bodyGrows_trans with sa|].
    - apply sameResp_bodyGrows, logPrintf_sameResp.
    - apply (preserves_forEach bodyGrows bodyGrows_refl bodyGrows_trans).
      auto with run.
    - apply middle_bodyGrows. }
  destruct Hc as [Hsent Hcalls]. destruct Hb as [pre Hpre].
  destruct (report_run W o rp n files (validate files) s2)
    as (e & post & C2 & B2 & S2).
  exists e, pre, post. split; [|split].
  - rewrite C2, Hcalls, C.
    rewrite (updatePRStatus_result W o rp n _ _ s2
               (snd (fetchPRFiles W o rp n initial)))
      by (rewrite Hsent; exact S).
    reflexivity.
  - rewrite B2, Hpre. unfold responseBody at 1. rewrite R. reflexivity.
  - rewrite S2, Hs. unfold statusCode. rewrite R. reflexivity.
Qed.

End Process.

(** * Properties of the handlers *)

Lemma readPayload_formEncoded (j : string) (r : Request) :
  formEncoded j r -> readPayload r = PayloadOk j.
Proof.
  intros (Hc & Hp & Hv). unfold readPayload. now rewrite Hc, Hp, Hv.
Qed.

Lemma readPayload_rawJSON (j : string) (r : Request) :
  rawJSON j r -> readPayload r = PayloadOk j.
Proof.
  intros (Hc & Hb). unfold readPayload.
  destruct (String.eqb_spec (ContentType r) "application/x-www-form-urlencoded")
    as [E|_]; [now elim Hc | now rewrite Hb].
Qed.

(** The handlers look at a request through [readPayload] only. *)
Lemma main_handler_payload (W : World) (r1 r2 : Request) :
  readPayload r1 = readPayload r2 ->
  MainGo.prWebhookHandler W r1 = MainGo.prWebhookHandler W r2.
Proof. intros H. unfold MainGo.prWebhookHandler. now rewrite H. Qed.

Lemma part_handler_payload (W : World) (r1 r2 : Request) :
  readPayload r1 = readPayload r2 ->
  Part000.prWebhookHandler W r1 = Part000.prWebhookHandler W r2.
Proof. intros H. unfold Part000.prWebhookHandler. now rewrite H. Qed.

(** Once the payload is there, nothing the handlers do changes the status
    code that the response will carry. *)
Lemma main_handler_sameStatus (W : World) (r : Request) (payload : string) :
  readPayload r = PayloadOk payload ->
  preserves sameStatus (MainGo.prWebhookHandler W r).
Proof.
  intros H. unfold MainGo.prWebhookHandler. rewrite H. preserves_auto.
Qed.

Lemma part_handler_sameStatus (W : World) (r : Request) (payload : string) :
  readPayload r = PayloadOk payload ->
  preserves sameStatus (Part000.prWebhookHandler W r).
Proof.
  intros H. unfold Part000.prWebhookHandler. rewrite H. preserves_auto.
Qed.

Lemma handlers_payload_error (W : World) (r : Request) (msg : string) (code : Z) :
  readPayload r = PayloadError msg code ->
  statusCode (MainGo.run W r) = code /\ statusCode (Part000.run W r) = code.
Proof.
  intros H.
  unfold MainGo.run, MainGo.prWebhookHandler, Part000.run, Part000.prWebhookHandler.
  rewrite H. split; reflexivity.
Qed.

Lemma payloadAvailable_readPayload (r : Request) :
  payloadAvailable r -> exists payload, readPayload r = PayloadOk payload.
Proof.
  unfold readPayload. intros [[Hc Hp]|[Hc [body Hb]]].
  - rewrite Hc, Hp. simpl. eauto.
  - destruct (String.eqb_spec (ContentType r) "application/x-www-form-urlencoded")
      as [E|_]; [now elim Hc | rewrite Hb; eauto].
Qed.

(** C2, as the code has it: a request whose payload can be obtained (the
    form parses when the content type is form-encoded, the body can be read
    otherwise) is answered with status 200 whatever the payload is, malformed
    JSON included; a form that does not parse is answered 400 and a body that
    cannot be read 500 (in both variants). *)
Theorem webhook_status_codes (W : World) (r : Request) :
  (payloadAvailable r ->
   statusCode (MainGo.run W r) = 200 /\ statusCode (Part000.run W r) = 200)
  /\
  (ContentType r = "application/x-www-form-urlencoded" ->
   (exists err, ParseForm r = Some err) ->
   statusCode (MainGo.run W r) = 400 /\ statusCode (Part000.run W r) = 400)
  /\
  (ContentType r <> "application/x-www-form-urlencoded" ->
   (exists err, ReadBody r = inl err) ->
   statusCode (MainGo.run W r) = 500 /\ statusCode (Part000.run W r) = 500).
Proof.
  split; [|split].
  - intros Hr. destruct (payloadAvailable_readPayload r Hr) as [payload H]. split.
    + apply (main_handler_sameStatus W r payload H initial).
    + apply (part_handler_sameStatus W r payload H initial).
  - intros Hc [err He].
    apply handlers_payload_error with (msg := "Could not parse form").
    unfold readPayload. now rewrite Hc, He.
  - intros Hc [err He].
    apply handlers_payload_error with (msg := "Could not read request body").
    unfold readPayload.
    destruct (String.eqb_spec (ContentType r) "application/x-www-form-urlencoded")
      as [E|_]; [now elim Hc | now rewrite He].
Qed.

Lemma webhook_status_codes_witness :
  (statusCode (MainGo.run (exampleWorld exampleEvent [] true) (rawRequest "{not json")) = 200
   /\ statusCode (Part000.run (exampleWorld exampleEvent [] true) (rawRequest "{not json")) = 200)
  /\
  (statusCode (MainGo.run (exampleWorld exampleEvent [fileNamed "a.go"] false)
                 (formRequest examplePayload)) = 200
   /\ statusCode (Part000.run (exampleWorld exampleEvent [fileNamed "a.go"] false)
                    (formRequest examplePayload)) = 200).
Proof.
  split.
  - apply (proj1 (webhook_status_codes (exampleWorld exampleEvent [] true)
                    (rawRequest "{not json"))).
    right. split; [discriminate | exists "{not json"; reflexivity].
  - apply (proj1 (webhook_status_codes (exampleWorld exampleEvent [fileNamed "a.go"] false)
                    (formRequest examplePayload))).
    left. split; reflexivity.
Defined.

(** C2 as stated fails: a form-encoded request whose form does not parse is
    answered 400, and a request whose body cannot be read is answered 500. *)
Lemma webhook_status_not_always_200 :
  statusCode (MainGo.run (exampleWorld exampleEvent [] true) brokenFormRequest) = 400
  /\ statusCode (Part000.run (exampleWorld exampleEvent [] true) brokenFormRequest) = 400
  /\ statusCode (MainGo.run (exampleWorld exampleEvent [] true) unreadableRequest) = 500
  /\ statusCode (Part000.run (exampleWorld exampleEvent [] true) unreadableRequest) = 500.
Proof. repeat split. Qed.

Lemma process_first_call (W : World) (ev : PullRequestEvent)
  (middle : list PRFile -> M unit) (validate : list PRFile -> bool) :
  (forall files, preserves sameCalls (middle files)) ->
  (forall files, preserves sameStatus (middle files)) ->
  (forall files, preserves bodyGrows (middle files)) ->
  exists res rest,
    calls (snd (process W ev middle validate initial))
    = (FetchPRFiles (ownerOf ev) (repoOf ev) (resolvedNumber ev), res) :: rest.
Proof.
  intros Hc Hs Hb. destruct (fetchResult W ev) as [err|files] eqn:Hf.
  - destruct (process_fetch_failed W ev middle validate err Hf) as (C & _).
    rewrite C. eauto.
  - destruct (process_fetched W ev middle validate Hc Hs Hb files Hf)
      as (e & pre & post & C & _).
    rewrite C. eauto.
Qed.

Lemma ret_sameCalls (files : list PRFile) : preserves sameCalls (ret tt).
Proof. apply preserves_ret, sameCalls_refl. Qed.

Lemma ret_sameStatus (files : list PRFile) : preserves sameStatus (ret tt).
Proof. apply preserves_ret, sameStatus_refl. Qed.

Lemma ret_bodyGrows (files : list PRFile) : preserves bodyGrows (ret tt).
Proof. apply preserves_ret, bodyGrows_refl. Qed.

Lemma main_fetched (W : World) (r : Request) (ev : PullRequestEvent)
  (files : list PRFile) :
  decodeEvent W r = Some ev ->
  acceptedMain (Action ev) = true ->
  resolvedNumber ev <> 0 ->
  fetchResult W ev = inr files ->
  fetchedRun W ev files (MainGo.validatePR files) (MainGo.run W r).
Proof.
  intros Hd Ha Hn Hf. rewrite (main_run_accepted W r ev Hd Ha Hn).
  apply (process_fetched W ev (fun _ => ret tt) MainGo.validatePR
           ret_sameCalls ret_sameStatus ret_bodyGrows files Hf).
Qed.

Lemma part_fetched (W : World) (r : Request) (ev : PullRequestEvent)
  (files : list PRFile) :
  decodeEvent W r = Some ev ->
  acceptedPart (Action ev) = true ->
  resolvedNumber ev <> 0 ->
  fetchResult W ev = inr files ->
  fetchedRun W ev files (Part000.validatePR files) (Part000.run W r).
Proof.
  intros Hd Ha Hn Hf. rewrite (part_run_accepted W r ev Hd Ha Hn).
  apply (process_fetched W ev (Part000.enhancedReporting W) Part000.validatePR
           (enhancedReporting_sameCalls W) (enhancedReporting_sameStatus W)
           (enhancedReporting_bodyGrows W) files Hf).
Qed.

Lemma fetchedRun_failure (W : World) (ev : PullRequestEvent) (files : list PRFile)
  (s : St) :
  fetchedRun W ev files false s -> callsOf s = failureCalls ev.
Proof.
  intros (e & pre & post & C & _). unfold callsOf. rewrite C. reflexivity.
Qed.

Lemma fetchedRun_success (W : World) (ev : PullRequestEvent) (files : list PRFile)
  (s : St) :
  fetchedRun W ev files true s -> callsOf s = successCalls ev.
Proof.
  intros (e & pre & post & C & _). unfold callsOf. rewrite C. reflexivity.
Qed.

Lemma complete_contains (n : Z) (vp : bool) (pre post : string) :
  contains ("PR #" ++ showZ n ++ " validation complete")
    (pre ++ completeLine n vp ++ post) = true.
Proof.
  unfold completeLine.
  replace (("PR #" ++ showZ n ++ " validation complete. Status: "
            ++ statusOf vp ++ newline) ++ post)
    with (("PR #" ++ showZ n ++ " validation complete")
          ++ ". Status: " ++ statusOf vp ++ newline ++ post).
  - apply contains_app.
  - rewrite !append_assoc. reflexivity.
Qed.

Lemma fetchedRun_survives (W : World) (ev : PullRequestEvent) (files : list PRFile)
  (vp : bool) (err : error) (s : St) :
  fetchedRun W ev files vp s ->
  statusResult W ev (statusOf vp) (descriptionOf vp) = Some err ->
  survivesStatusError ev vp err s.
Proof.
  intros (e & pre & post & C & B & _) Herr. split; [|split].
  - rewrite C, Herr. right; left; reflexivity.
  - intros ->. unfold callsOf. rewrite C. simpl. auto.
  - rewrite B. apply complete_contains.
Qed.

(** C3: for an accepted event whose files are fetched and fail the
    validation, the API calls of the run are the fetch, then exactly one
    status update with state "failure" and description "PR validation
    failed.", then exactly one close call for that pull request (in both
    variants). *)
Theorem failed_validation_calls (W : World) (r : Request)
  (ev : PullRequestEvent) (files : list PRFile) :
  decodeEvent W r = Some ev ->
  resolvedNumber ev <> 0 ->
  fetchResult W ev = inr files ->
  (acceptedMain (Action ev) = true ->
   MainGo.validatePR files = false ->
   callsOf (MainGo.run W r) = failureCalls ev)
  /\
  (acceptedPart (Action ev) = true ->
   Part000.validatePR files = false ->
   callsOf (Part000.run W r) = failureCalls ev).
Proof.
  intros Hd Hn Hf. split; intros Ha Hv.
  - apply fetchedRun_failure with W files. rewrite <- Hv.
    now apply main_fetched.
  - apply fetchedRun_failure with W files. rewrite <- Hv.
    now apply part_fetched.
Qed.

Lemma failed_validation_calls_witness :
  callsOf (MainGo.run (exampleWorld exampleEvent [fileNamed "forbidden.txt"] true)
             (rawRequest examplePayload))
  = failureCalls exampleEvent
  /\
  callsOf (Part000.run (exampleWorld exampleEvent [fileNamed "forbidden.txt"] true)
             (rawRequest examplePayload))
  = failureCalls exampleEvent.
Proof.
  assert (Hn : resolvedNumber exampleEvent <> 0) by (vm_compute; discriminate).
  destruct (failed_validation_calls
              (exampleWorld exampleEvent [fileNamed "forbidden.txt"] true)
              (rawRequest examplePayload) exampleEvent
              [fileNamed "forbidden.txt"] eq_refl Hn eq_refl) as [Hm Hp].
  split; [apply Hm | apply Hp]; reflexivity.
Defined.

(** C4: for an accepted event whose files are fetched and pass the
    validation, the API calls of the run are the fetch and exactly one status
    update, with state "success"; there is no close call.  (In [main.go] no
    list of files passes, see [main_validatePR_false]: such runs exist in the
    second variant only.) *)
Theorem passed_validation_calls (W : World) (r : Request)
  (ev : PullRequestEvent) (files : list PRFile) :
  decodeEvent W r = Some ev ->
  resolvedNumber ev <> 0 ->
  fetchResult W ev = inr files ->
  (acceptedMain (Action ev) = true ->
   MainGo.validatePR files = true ->
   callsOf (MainGo.run W r) = successCalls ev)
  /\
  (acceptedPart (Action ev) = true ->
   Part000.validatePR files = true ->
   callsOf (Part000.run W r) = successCalls ev).
Proof.
  intros Hd Hn Hf. split; intros Ha Hv.
  - apply fetchedRun_success with W files. rewrite <- Hv.
    now apply main_fetched.
  - apply fetchedRun_success with W files. rewrite <- Hv.
    now apply part_fetched.
Qed.

Lemma passed_validation_calls_witness :
  callsOf (Part000.run (exampleWorld exampleEvent [fileNamed "ok.txt"] true)
             (rawRequest examplePayload))
  = successCalls exampleEvent.
Proof.
  assert (Hn : resolvedNumber exampleEvent <> 0) by (vm_compute; discriminate).
  apply (proj2 (passed_validation_calls
                  (exampleWorld exampleEvent [fileNamed "ok.txt"] true)
                  (rawRequest examplePayload) exampleEvent
                  [fileNamed "ok.txt"] eq_refl Hn eq_refl));
    reflexivity.
Defined.

Lemma main_ignored (W : World) (r : Request) (ev : PullRequestEvent) :
  decodeEvent W r = Some ev ->
  acceptedMain (Action ev) = false ->
  responseBody (MainGo.run W r) = "Ignoring PR event with action: " ++ Action ev
  /\ noOutboundCall (MainGo.run W r).
Proof.
  intros Hd Ha. destruct (decodeEvent_Some _ _ _ Hd) as (p & Hp & Hu).
  unfold MainGo.run, MainGo.prWebhookHandler.
  rewrite Hp, Hu. unfold acceptedMain in Ha. rewrite Ha.
  repeat split.
Qed.

Lemma part_ignored (W : World) (r : Request) (ev : PullRequestEvent) :
  decodeEvent W r = Some ev ->
  acceptedPart (Action ev) = false ->
  responseBody (Part000.run W r) = "Ignoring PR event with action: " ++ Action ev
  /\ noOutboundCall (Part000.run W r).
Proof.
  intros Hd Ha. destruct (decodeEvent_Some _ _ _ Hd) as (p & Hp & Hu).
  unfold Part000.run, Part000.prWebhookHandler.
  rewrite Hp, Hu. unfold acceptedPart in Ha. rewrite <- negb_orb, Ha.
  repeat split.
Qed.

Lemma ignoring_contains (action : string) :
  contains action ("Ignoring PR event with action: " ++ action) = true.
Proof.
  rewrite <- (append_nil_r action) at 2. apply contains_app.
Qed.

(** C6: for a decoded event whose action is not one the variant accepts
    ("opened" in [main.go]; "opened" or "reopened" in the second variant),
    the response body contains the action, and the run calls no API function
    and sends no request. *)
Theorem ignored_action (W : World) (r : Request) (ev : PullRequestEvent) :
  decodeEvent W r = Some ev ->
  (acceptedMain (Action ev) = false ->
   contains (Action ev) (responseBody (MainGo.run W r)) = true
   /\ noOutboundCall (MainGo.run W r))
  /\
  (acceptedPart (Action ev) = false ->
   contains (Action ev) (responseBody (Part000.run W r)) = true
   /\ noOutboundCall (Part000.run W r)).
Proof.
  intros Hd. split; intros Ha.
  - destruct (main_ignored W r ev Hd Ha) as [B N]. rewrite B.
    split; [apply ignoring_contains | exact N].
  - destruct (part_ignored W r ev Hd Ha) as [B N]. rewrite B.
    split; [apply ignoring_contains | exact N].
Qed.

Lemma ignored_action_witness :
  (contains "reopened"
     (responseBody (MainGo.run (exampleWorld (eventOf "reopened" 0 42) [] true)
                      (rawRequest examplePayload))) = true
   /\ noOutboundCall (MainGo.run (exampleWorld (eventOf "reopened" 0 42) [] true)
                        (rawRequest examplePayload)))
  /\
  (contains "closed"
     (responseBody (Part000.run (exampleWorld (eventOf "closed" 0 42) [] true)
                      (rawRequest examplePayload))) = true
   /\ noOutboundCall (Part000.run (exampleWorld (eventOf "closed" 0 42) [] true)
                        (rawRequest examplePayload))).
Proof.
  split.
  - apply (proj1 (ignored_action (exampleWorld (eventOf "reopened" 0 42) [] true)
                    (rawRequest examplePayload) (eventOf "reopened" 0 42) eq_refl)).
    reflexivity.
  - apply (proj2 (ignored_action (exampleWorld (eventOf "closed" 0 42) [] true)
                    (rawRequest examplePayload) (eventOf "closed" 0 42) eq_refl)).
    reflexivity.
Defined.

Lemma main_number_zero (W : World) (r : Request) (ev : PullRequestEvent) :
  decodeEvent W r = Some ev ->
  acceptedMain (Action ev) = true ->
  resolvedNumber ev = 0 ->
  responseBody (MainGo.run W r) = "No PR number found"
  /\ noOutboundCall (MainGo.run W r).
Proof.
  intros Hd Ha Hn. destruct (decodeEvent_Some _ _ _ Hd) as (p & Hp & Hu).
  unfold MainGo.run, MainGo.prWebhookHandler.
  rewrite Hp, Hu. unfold acceptedMain in Ha. rewrite Ha.
  cbv zeta.
  change (if PullRequestNumber (PullRequest ev) =? 0 then Number ev
          else PullRequestNumber (PullRequest ev)) with (resolvedNumber ev).
  rewrite Hn. repeat split.
Qed.

Lemma part_number_zero (W : World) (r : Request) (ev : PullRequestEvent) :
  decodeEvent W r = Some ev ->
  acceptedPart (Action ev) = true ->
  resolvedNumber ev = 0 ->
  responseBody (Part000.run W r) = "No PR number found"
  /\ noOutboundCall (Part000.run W r).
Proof.
  intros Hd Ha Hn. destruct (decodeEvent_Some _ _ _ Hd) as (p & Hp & Hu).
  unfold Part000.run, Part000.prWebhookHandler.
  rewrite Hp, Hu. unfold acceptedPart in Ha. rewrite <- negb_orb, Ha.
  cbv zeta.
  change (if PullRequestNumber (PullRequest ev) =? 0 then Number ev
          else PullRequestNumber (PullRequest ev)) with (resolvedNumber ev).
  rewrite Hn. repeat split.
Qed.

(** From the two cases of the resolved number to the three of the claim. *)
Lemma resolvesNumber_intro (ev : PullRequestEvent) (s : St) :
  (resolvedNumber ev <> 0 ->
   exists res rest,
     calls s = (FetchPRFiles (ownerOf ev) (repoOf ev) (resolvedNumber ev), res) :: rest) ->
  (resolvedNumber ev = 0 ->
   responseBody s = "No PR number found" /\ noOutboundCall s) ->
  resolvesNumber ev s.
Proof.
  unfold resolvedNumber, resolvesNumber. intros Hnz Hz.
  destruct (Z.eqb_spec (PullRequestNumber (PullRequest ev)) 0) as [E|E].
  - split; [|split].
    + intros H. now elim H.
    + intros _ H. auto.
    + intros _ H. auto.
  - split; [|split].
    + intros _. auto.
    + intros H. now elim E.
    + intros H. now elim E.
Qed.

(** C7: for an accepted event the pull request is the one numbered
    [pull_request.number] when that is not 0, and the top-level [number]
    otherwise: the files are fetched for that number; when both are 0 the
    response is "No PR number found" and the run calls no API function and
    sends no request (in both variants). *)
Theorem pr_number_resolution (W : World) (r : Request) (ev : PullRequestEvent) :
  decodeEvent W r = Some ev ->
  (acceptedMain (Action ev) = true -> resolvesNumber ev (MainGo.run W r))
  /\
  (acceptedPart (Action ev) = true -> resolvesNumber ev (Part000.run W r)).
Proof.
  intros Hd. split; intros Ha; apply resolvesNumber_intro.
  - intros Hn. rewrite (main_run_accepted W r ev Hd Ha Hn).
    apply process_first_call;
      [apply ret_sameCalls | apply ret_sameStatus | apply ret_bodyGrows].
  - now apply main_number_zero.
  - intros Hn. rewrite (part_run_accepted W r ev Hd Ha Hn).
    apply process_first_call;
      [apply enhancedReporting_sameCalls | apply enhancedReporting_sameStatus
      | apply enhancedReporting_bodyGrows].
  - now apply part_number_zero.
Qed.

Lemma pr_number_resolution_witness :
  resolvesNumber (eventOf "opened" 7 42)
    (MainGo.run (exampleWorld (eventOf "opened" 7 42) [] true) (rawRequest examplePayload))
  /\ resolvesNumber (eventOf "reopened" 7 0)
       (Part000.run (exampleWorld (eventOf "reopened" 7 0) [] true)
          (rawRequest examplePayload))
  /\ resolvesNumber (eventOf "opened" 0 0)
       (MainGo.run (exampleWorld (eventOf "opened" 0 0) [] true) (rawRequest examplePayload)).
Proof.
  split; [|split].
  - apply (proj1 (pr_number_resolution (exampleWorld (eventOf "opened" 7 42) [] true)
                    (rawRequest examplePayload) (eventOf "opened" 7 42) eq_refl)).
    reflexivity.
  - apply (proj2 (pr_number_resolution (exampleWorld (eventOf "reopened" 7 0) [] true)
                    (rawRequest examplePayload) (eventOf "reopened" 7 0) eq_refl)).
    reflexivity.
  - apply (proj1 (pr_number_resolution (exampleWorld (eventOf "opened" 0 0) [] true)
                    (rawRequest examplePayload) (eventOf "opened" 0 0) eq_refl)).
    reflexivity.
Defined.

(** C8: a form-encoded request whose [payload] field holds [j] and a request
    of another content type whose body is [j] decode to the same event, and
    the handler does the same with both: same response, same calls, same
    log (in both variants). *)
Theorem form_and_raw_agree (W : World) (j : string) (r1 r2 : Request) :
  formEncoded j r1 ->
  rawJSON j r2 ->
  decodeEvent W r1 = decodeEvent W r2
  /\ MainGo.run W r1 = MainGo.run W r2
  /\ Part000.run W r1 = Part000.run W r2.
Proof.
  intros H1 H2.
  assert (E : readPayload r1 = readPayload r2)
    by now rewrite (readPayload_formEncoded j r1 H1), (readPayload_rawJSON j r2 H2).
  split; [|split].
  - unfold decodeEvent. now rewrite E.
  - unfold MainGo.run. now rewrite (main_handler_payload W r1 r2 E).
  - unfold Part000.run. now rewrite (part_handler_payload W r1 r2 E).
Qed.

Lemma form_and_raw_agree_witness :
  decodeEvent (exampleWorld exampleEvent [fileNamed "forbidden.txt"] true)
    (formRequest examplePayload)
  = decodeEvent (exampleWorld exampleEvent [fileNamed "forbidden.txt"] true)
      (rawRequest examplePayload)
  /\ MainGo.run (exampleWorld exampleEvent [fileNamed "forbidden.txt"] true)
       (formRequest examplePayload)
     = MainGo.run (exampleWorld exampleEvent [fileNamed "forbidden.txt"] true)
         (rawRequest examplePayload)
  /\ Part000.run (exampleWorld exampleEvent [fileNamed "forbidden.txt"] true)
       (formRequest examplePayload)
     = Part000.run (exampleWorld exampleEvent [fileNamed "forbidden.txt"] true)
         (rawRequest examplePayload).
Proof.
  apply (form_and_raw_agree
           (exampleWorld exampleEvent [fileNamed "forbidden.txt"] true)
           examplePayload (formRequest examplePayload) (rawRequest examplePayload)).
  - repeat split.
  - split; [discriminate | reflexivity].
Defined.

(** C9: when the status update returns an error, the run goes on: the error
    is what the call returned, the close call is still made when the
    validation failed, and the final response, with its line "PR #N
    validation complete", is still sent (in both variants). *)
Theorem status_error_not_fatal (W : World) (r : Request)
  (ev : PullRequestEvent) (files : list PRFile) (err : error) :
  decodeEvent W r = Some ev ->
  resolvedNumber ev <> 0 ->
  fetchResult W ev = inr files ->
  (acceptedMain (Action ev) = true ->
   statusResult W ev (statusOf (MainGo.validatePR files))
     (descriptionOf (MainGo.validatePR files)) = Some err ->
   survivesStatusError ev (MainGo.validatePR files) err (MainGo.run W r))
  /\
  (acceptedPart (Action ev) = true ->
   statusResult W ev (statusOf (Part000.validatePR files))
     (descriptionOf (Part000.validatePR files)) = Some err ->
   survivesStatusError ev (Part000.validatePR files) err (Part000.run W r)).
Proof.
  intros Hd Hn Hf. split; intros Ha Herr.
  - apply fetchedRun_survives with W files; [now apply main_fetched | exact Herr].
  - apply fetchedRun_survives with W files; [now apply part_fetched | exact Herr].
Qed.

Lemma status_error_not_fatal_witness :
  survivesStatusError exampleEvent false "connection refused"
    (MainGo.run (exampleWorld exampleEvent [fileNamed "forbidden.txt"] false)
       (rawRequest examplePayload))
  /\ survivesStatusError exampleEvent false "connection refused"
       (Part000.run (exampleWorld exampleEvent [fileNamed "forbidden.txt"] false)
          (rawRequest examplePayload))
  /\ survivesStatusError exampleEvent true "connection refused"
       (Part000.run (exampleWorld exampleEvent [fileNamed "ok.txt"] false)
          (rawRequest examplePayload)).
Proof.
  assert (Hn : resolvedNumber exampleEvent <> 0) by (vm_compute; discriminate).
  split; [|split].
  - apply (proj1 (status_error_not_fatal
                    (exampleWorld exampleEvent [fileNamed "forbidden.txt"] false)
                    (rawRequest examplePayload) exampleEvent
                    [fileNamed "forbidden.txt"] "connection refused"
                    eq_refl Hn eq_refl)); reflexivity.
  - apply (proj2 (status_error_not_fatal
                    (exampleWorld exampleEvent [fileNamed "forbidden.txt"] false)
                    (rawRequest examplePayload) exampleEvent
                    [fileNamed "forbidden.txt"] "connection refused"
                    eq_refl Hn eq_refl)); reflexivity.
  - apply (proj2 (status_error_not_fatal
                    (exampleWorld exampleEvent [fileNamed "ok.txt"] false)
                    (rawRequest examplePayload) exampleEvent
                    [fileNamed "ok.txt"] "connection refused"
                    eq_refl Hn eq_refl)); reflexivity.
Defined.

(** The end-to-end example of the specification: the event for pull request
    42 of acme/repo, whose only changed file is [forbidden.txt]. *)
Example end_to_end :
  contains "PR #42 validation complete. Status: failure"
    (responseBody (Part000.run (exampleWorld exampleEvent [fileNamed "forbidden.txt"] true)
                     (rawRequest examplePayload))) = true
  /\ In (ClosePullRequest "acme" "repo" 42)
       (callsOf (Part000.run (exampleWorld exampleEvent [fileNamed "forbidden.txt"] true)
                   (rawRequest examplePayload)))
  /\ statusCode (Part000.run (exampleWorld exampleEvent [fileNamed "forbidden.txt"] true)
                   (rawRequest examplePayload)) = 200.
Proof. vm_compute. intuition. Qed.

(** * Further properties of the API functions *)

(** X1: [fetchPRFiles] sends at most one request: none when the request
    cannot be built, else a GET without body for the files of the pull
    request, whose only header is Accept; it carries no Authorization
    header. *)
Theorem fetchPRFiles_sends (W : World) (o r : string) (n : Z) (s : St) :
  sent (snd (fetchPRFiles W o r n s))
  = (sent s ++ match newRequestError W "GET" (URL (filesRequest o r n)) with
               | Some _ => []
               | None => [filesRequest o r n]
               end)%list
  /\ hasHeader "Authorization" (filesRequest o r n) = false.
Proof.
  split; [|reflexivity].
  unfold fetchPRFiles, traced, bind, doRequest, ret, filesRequest. simpl.
  destruct (newRequestError W "GET" _).
  - simpl. now rewrite app_nil_r.
  - destruct (clientDo W _ _) as [e|rsp]; [reflexivity|].
    destruct (negb (StatusCode rsp =? 200)); [reflexivity|].
    destruct (decodeFiles W _); reflexivity.
Qed.

(** X2: [fetchPRFiles] returns a list of files exactly when the request can
    be built, gets through, is answered with status 200 and the body decodes
    to that list. *)
Theorem fetchPRFiles_ok_iff (W : World) (o r : string) (n : Z) (s : St)
  (files : list PRFile) :
  fst (fetchPRFiles W o r n s) = inr files
  <->
  newRequestError W "GET" (URL (filesRequest o r n)) = None
  /\ exists rsp,
       clientDo W (sent s) (filesRequest o r n) = inr rsp
       /\ StatusCode rsp = 200
       /\ decodeFiles W (RespBody rsp) = inr files.
Proof.
  unfold fetchPRFiles, traced, bind, doRequest, ret, filesRequest. simpl.
  destruct (newRequestError W "GET" _) as [e0|].
  { simpl. split; [discriminate | intros [H _]; discriminate]. }
  destruct (clientDo W _ _) as [e|rsp].
  { simpl. split; [discriminate | intros (_ & rsp & H & _); discriminate]. }
  destruct (Z.eqb_spec (StatusCode rsp) 200) as [E|E]; simpl.
  - destruct (decodeFiles W (RespBody rsp)) as [e|fs] eqn:D; simpl.
    + split; [discriminate|].
      intros (_ & rsp' & [= <-] & _ & D'). congruence.
    + split.
      * intros [= <-]. split; [reflexivity|]. now exists rsp.
      * intros (_ & rsp' & [= <-] & _ & D'). congruence.
  - split; [discriminate|].
    intros (_ & rsp' & [= <-] & E' & _). now elim E.
Qed.

#[local] Arguments String.append : simpl never.
#[local] Arguments lookupRequest : simpl never.
#[local] Arguments statusRequest : simpl never.
#[local] Arguments closeRequest : simpl never.

(** X3: the requests of [updatePRStatus]: none, or the lookup of the pull
    request alone, or the lookup followed by one POST of the status; the POST
    goes out only after the lookup was answered with status 200 and a body
    from which the head SHA was decoded, and it is addressed to that SHA and
    carries the state and the description. *)
Theorem updatePRStatus_sends (W : World) (o r : string) (n : Z) (st d : string)
  (s : St) :
  exists reqs,
    sent (snd (updatePRStatus W o r n st d s)) = (sent s ++ reqs)%list
    /\ (reqs = []
        \/ reqs = [lookupRequest W o r n]
        \/ exists rsp sha,
             clientDo W (sent s) (lookupRequest W o r n) = inr rsp
             /\ StatusCode rsp = 200
             /\ decodeHeadSHA W (RespBody rsp) = inr sha
             /\ reqs = [lookupRequest W o r n; statusRequest W o r sha st d]).
Proof.
  unfold updatePRStatus, traced, bind, doRequest, ret, logPrintf.
  fold (lookupRequest W o r n).
  destruct (newRequestError W "GET" _).
  { exists []. simpl. rewrite app_nil_r. auto. }
  destruct (clientDo W (sent s) (lookupRequest W o r n)) as [e|rsp] eqn:D1.
  { exists [lookupRequest W o r n]. simpl. auto. }
  destruct (Z.eqb_spec (StatusCode rsp) 200) as [E|E]; simpl.
  2:{ exists [lookupRequest W o r n]. auto. }
  destruct (decodeHeadSHA W (RespBody rsp)) as [e|sha] eqn:D2.
  { exists [lookupRequest W o r n]. simpl. auto. }
  fold (statusRequest W o r sha st d).
  destruct (newRequestError W "POST" _).
  { exists [lookupRequest W o r n]. simpl. auto. }
  exists [lookupRequest W o r n; statusRequest W o r sha st d].
  split.
  - simpl.
    destruct (clientDo W (sent s ++ [lookupRequest W o r n])
                (statusRequest W o r sha st d)) as [e|rsp2];
      simpl; [now rewrite <- app_assoc|].
    destruct (negb (StatusCode rsp2 =? 201)); simpl; now rewrite <- app_assoc.
  - right; right. exists rsp, sha. auto.
Qed.

(** X4: [updatePRStatus] returns no error exactly when both requests can be
    built and get through, the lookup is answered 200 with a body that gives
    the head SHA, and the POST of the status is answered 201. *)
Theorem updatePRStatus_ok_iff (W : World) (o r : string) (n : Z) (st d : string)
  (s : St) :
  fst (updatePRStatus W o r n st d s) = None
  <->
  newRequestError W "GET" (URL (lookupRequest W o r n)) = None
  /\ exists rsp sha rsp2,
       clientDo W (sent s) (lookupRequest W o r n) = inr rsp
       /\ StatusCode rsp = 200
       /\ decodeHeadSHA W (RespBody rsp) = inr sha
       /\ newRequestError W "POST" (URL (statusRequest W o r sha st d)) = None
       /\ clientDo W (sent s ++ [lookupRequest W o r n])
            (statusRequest W o r sha st d) = inr rsp2
       /\ StatusCode rsp2 = 201.
Proof.
  unfold updatePRStatus, traced, bind, doRequest, ret, logPrintf.
  fold (lookupRequest W o r n).
  change (URL (lookupRequest W o r n))
    with ("https://api.github.com/repos/" ++ o ++ "/" ++ r ++ "/pulls/" ++ showZ n).
  destruct (newRequestError W "GET" _) as [e0|].
  { simpl. split; [discriminate | intros [H _]; discriminate]. }
  destruct (clientDo W (sent s) (lookupRequest W o r n)) as [e|rsp] eqn:D1.
  { simpl. split; [discriminate | intros (_ & ? & ? & ? & H & _); discriminate]. }
  destruct (Z.eqb_spec (StatusCode rsp) 200) as [E|E]; simpl.
  2:{ split; [discriminate|].
      intros (_ & rsp' & ? & ? & [= <-] & E' & _). now elim E. }
  destruct (decodeHeadSHA W (RespBody rsp)) as [e|sha] eqn:D2.
  { simpl. split; [discriminate|].
    intros (_ & rsp' & ? & ? & [= <-] & _ & H & _). congruence. }
  fold (statusRequest W o r sha st d).
  change ("https://api.github.com/repos/" ++ o ++ "/" ++ r ++ "/statuses/" ++ sha)
    with (URL (statusRequest W o r sha st d)).
  destruct (newRequestError W "POST" (URL (statusRequest W o r sha st d))) as [e1|] eqn:D3.
  { simpl. split; [discriminate|].
    intros (_ & rsp' & sha' & ? & [= <-] & _ & H & H' & _).
    assert (sha' = sha) by congruence. subst.
    unfold statusRequest in *. simpl in *. congruence. }
  simpl.
  destruct (clientDo W (sent s ++ [lookupRequest W o r n]) (statusRequest W o r sha st d))
    as [e|rsp2] eqn:D4.
  { simpl. split; [discriminate|].
    intros (_ & rsp' & sha' & ? & [= <-] & _ & H & _ & H' & _).
    assert (sha' = sha) by congruence. subst. congruence. }
  destruct (Z.eqb_spec (StatusCode rsp2) 201) as [E2|E2]; simpl.
  - split; [|reflexivity]. intros _. split; [reflexivity|].
    exists rsp, sha, rsp2. repeat split; assumption.
  - split; [discriminate|].
    intros (_ & rsp' & sha' & rsp2' & [= <-] & _ & H & _ & H' & E').
    assert (sha' = sha) by congruence. subst.
    assert (rsp2' = rsp2) by congruence. subst. now elim E2.
Qed.

(** X5: [closePullRequest] sends at most one request: none when the request
    cannot be built, else a PATCH of the pull request with the token and the
    body [state: closed]; it returns no error exactly when that request gets
    through and is answered with status 200. *)
Theorem closePullRequest_spec (W : World) (o r : string) (n : Z) (s : St) :
  sent (snd (closePullRequest W o r n s))
  = (sent s ++ match newRequestError W "PATCH" (URL (closeRequest W o r n)) with
               | Some _ => []
               | None => [closeRequest W o r n]
               end)%list
  /\ (fst (closePullRequest W o r n s) = None
      <->
      newRequestError W "PATCH" (URL (closeRequest W o r n)) = None
      /\ exists rsp,
           clientDo W (sent s) (closeRequest W o r n) = inr rsp
           /\ StatusCode rsp = 200).
Proof.
  unfold closePullRequest, traced, bind, doRequest, ret, logPrintf.
  fold (closeRequest W o r n).
  change (URL (closeRequest W o r n))
    with ("https://api.github.com/repos/" ++ o ++ "/" ++ r ++ "/pulls/" ++ showZ n).
  destruct (newRequestError W "PATCH" _) as [e0|].
  { simpl. rewrite app_nil_r. split; [reflexivity|].
    split; [discriminate | intros [H _]; discriminate]. }
  destruct (clientDo W (sent s) (closeRequest W o r n)) as [e|rsp] eqn:D1.
  { simpl. split; [reflexivity|].
    split; [discriminate | intros (_ & ? & H & _); discriminate]. }
  destruct (Z.eqb_spec (StatusCode rsp) 200) as [E|E]; simpl.
  - split; [reflexivity|]. split; [|reflexivity].
    intros _. split; [reflexivity|]. now exists rsp.
  - split; [reflexivity|]. split; [discriminate|].
    intros (_ & rsp' & [= <-] & E'). now elim E.
Qed.

(** X6: an answer with an unexpected status makes each API function fail
    with the error "GitHub API error: " followed by the body of the answer:
    any status but 200 for the files, for the lookup of the pull request and
    for the close, any status but 201 for the POST of the status. *)
Theorem api_error_message (W : World) (o r : string) (n : Z) (st d : string)
  (s : St) (rsp : HttpResponse) :
  newRequestError W "GET" (URL (filesRequest o r n)) = None ->
  newRequestError W "GET" (URL (lookupRequest W o r n)) = None ->
  newRequestError W "PATCH" (URL (closeRequest W o r n)) = None ->
  (clientDo W (sent s) (filesRequest o r n) = inr rsp ->
   StatusCode rsp <> 200 ->
   fst (fetchPRFiles W o r n s) = inl ("GitHub API error: " ++ RespBody rsp))
  /\
  (clientDo W (sent s) (lookupRequest W o r n) = inr rsp ->
   StatusCode rsp <> 200 ->
   fst (updatePRStatus W o r n st d s) = Some ("GitHub API error: " ++ RespBody rsp))
  /\
  (forall rsp1 sha,
     clientDo W (sent s) (lookupRequest W o r n) = inr rsp1 ->
     StatusCode rsp1 = 200 ->
     decodeHeadSHA W (RespBody rsp1) = inr sha ->
     newRequestError W "POST" (URL (statusRequest W o r sha st d)) = None ->
     clientDo W (sent s ++ [lookupRequest W o r n]) (statusRequest W o r sha st d)
     = inr rsp ->
     StatusCode rsp <> 201 ->
     fst (updatePRStatus W o r n st d s) = Some ("GitHub API error: " ++ RespBody rsp))
  /\
  (clientDo W (sent s) (closeRequest W o r n) = inr rsp ->
   StatusCode rsp <> 200 ->
   fst (closePullRequest W o r n s) = Some ("GitHub API error: " ++ RespBody rsp)).
Proof.
  intros N1 N2 N3. repeat split.
  - intros D E. unfold fetchPRFiles, traced, bind, doRequest, ret.
    fold (filesRequest o r n).
    change (URL (filesRequest o r n))
      with ("https://api.github.com/repos/" ++ o ++ "/" ++ r ++ "/pulls/"
            ++ showZ n ++ "/files") in N1.
    rewrite N1, D. apply Z.eqb_neq in E. rewrite E. reflexivity.
  - intros D E. unfold updatePRStatus, traced, bind, doRequest, ret.
    fold (lookupRequest W o r n).
    change (URL (lookupRequest W o r n))
      with ("https://api.github.com/repos/" ++ o ++ "/" ++ r ++ "/pulls/" ++ showZ n)
      in N2.
    rewrite N2, D. apply Z.eqb_neq in E. rewrite E. reflexivity.
  - intros rsp1 sha D1 E1 D2 N4 D3 E.
    unfold updatePRStatus, traced, bind, doRequest, ret.
    fold (lookupRequest W o r n).
    change (URL (lookupRequest W o r n))
      with ("https://api.github.com/repos/" ++ o ++ "/" ++ r ++ "/pulls/" ++ showZ n)
      in N2.
    rewrite N2, D1. apply Z.eqb_eq in E1. rewrite E1. simpl.
    rewrite D2.
    fold (statusRequest W o r sha st d).
    change (URL (statusRequest W o r sha st d))
      with ("https://api.github.com/repos/" ++ o ++ "/" ++ r ++ "/statuses/" ++ sha)
      in N4.
    rewrite N4. simpl. rewrite D3. apply Z.eqb_neq in E. rewrite E. reflexivity.
  - intros D E. unfold closePullRequest, traced, bind, doRequest, ret.
    fold (closeRequest W o r n).
    change (URL (closeRequest W o r n))
      with ("https://api.github.com/repos/" ++ o ++ "/" ++ r ++ "/pulls/" ++ showZ n)
      in N3.
    rewrite N3, D. apply Z.eqb_neq in E. rewrite E. reflexivity.
Qed.

Lemma api_error_message_witness :
  fst (fetchPRFiles (answeringWorld 404 "Not Found") "acme" "repo" 42 initial)
  = inl ("GitHub API error: " ++ "Not Found")
  /\ fst (updatePRStatus (answeringWorld 404 "Not Found") "acme" "repo" 42
            "failure" "PR validation failed." initial)
     = Some ("GitHub API error: " ++ "Not Found")
  /\ fst (closePullRequest (answeringWorld 404 "Not Found") "acme" "repo" 42 initial)
     = Some ("GitHub API error: " ++ "Not Found")
  /\ fst (updatePRStatus (answeringWorld 200 "OK") "acme" "repo" 42
            "failure" "PR validation failed." initial)
     = Some ("GitHub API error: " ++ "OK").
Proof.
  destruct (api_error_message (answeringWorld 404 "Not Found") "acme" "repo" 42
              "failure" "PR validation failed." initial
              (mkHttpResponse 404 "Not Found") eq_refl eq_refl eq_refl)
    as (F & U & _ & C).
  destruct (api_error_message (answeringWorld 200 "OK") "acme" "repo" 42
              "failure" "PR validation failed." initial
              (mkHttpResponse 200 "OK") eq_refl eq_refl eq_refl)
    as (_ & _ & P & _).
  split; [|split; [|split]].
  - apply F; [reflexivity | discriminate].
  - apply U; [reflexivity | discriminate].
  - apply C; [reflexivity | discriminate].
  - apply (P (mkHttpResponse 200 "OK") "abc123"); try reflexivity. discriminate.
Defined.

(** * Further properties of the handlers *)

(** X7: when the payload does not parse as an event, both variants answer
    "Webhook received, but could not parse PR event" with status 200, log the
    error and the raw payload, and call no API function; they do exactly the
    same. *)
Theorem unparsable_payload (W : World) (r : Request) (payload : string)
  (err : error) :
  readPayload r = PayloadOk payload ->
  unmarshalEvent W payload = inl err ->
  responseBody (MainGo.run W r) = "Webhook received, but could not parse PR event"
  /\ statusCode (MainGo.run W r) = 200
  /\ noOutboundCall (MainGo.run W r)
  /\ logs (MainGo.run W r)
     = ["Could not parse PR event: " ++ err; "Raw payload: " ++ payload]
  /\ Part000.run W r = MainGo.run W r.
Proof.
  intros Hp Hu.
  unfold Part000.run, Part000.prWebhookHandler, MainGo.run, MainGo.prWebhookHandler.
  rewrite Hp, Hu. repeat split.
Qed.

Lemma unparsable_payload_witness :
  responseBody (MainGo.run (exampleWorld exampleEvent [] true) (formRequest "{not json"))
  = "Webhook received, but could not parse PR event"
  /\ statusCode (MainGo.run (exampleWorld exampleEvent [] true) (formRequest "{not json"))
     = 200
  /\ noOutboundCall (MainGo.run (exampleWorld exampleEvent [] true)
                       (formRequest "{not json"))
  /\ logs (MainGo.run (exampleWorld exampleEvent [] true) (formRequest "{not json"))
     = ["Could not parse PR event: " ++ "invalid character";
        "Raw payload: " ++ "{not json"]
  /\ Part000.run (exampleWorld exampleEvent [] true) (formRequest "{not json")
     = MainGo.run (exampleWorld exampleEvent [] true) (formRequest "{not json").
Proof.
  apply (unparsable_payload (exampleWorld exampleEvent [] true)
           (formRequest "{not json") "{not json" "invalid character");
    reflexivity.
Defined.

(** X8: when the files of the pull request cannot be fetched, the handler
    answers "Error fetching PR files" with status 200 and stops: the fetch is
    its only API call, so no status is reported and the pull request is not
    closed (in both variants). *)
Theorem fetch_failure_stops (W : World) (r : Request) (ev : PullRequestEvent)
  (err : error) :
  decodeEvent W r = Some ev ->
  resolvedNumber ev <> 0 ->
  fetchResult W ev = inl err ->
  (acceptedMain (Action ev) = true ->
   calls (MainGo.run W r)
   = [(FetchPRFiles (ownerOf ev) (repoOf ev) (resolvedNumber ev), Files (inl err))]
   /\ responseBody (MainGo.run W r) = "Error fetching PR files"
   /\ statusCode (MainGo.run W r) = 200)
  /\
  (acceptedPart (Action ev) = true ->
   calls (Part000.run W r)
   = [(FetchPRFiles (ownerOf ev) (repoOf ev) (resolvedNumber ev), Files (inl err))]
   /\ responseBody (Part000.run W r) = "Error fetching PR files"
   /\ statusCode (Part000.run W r) = 200).
Proof.
  intros Hd Hn Hf. split; intros Ha.
  - rewrite (main_run_accepted W r ev Hd Ha Hn).
    now apply process_fetch_failed.
  - rewrite (part_run_accepted W r ev Hd Ha Hn).
    now apply process_fetch_failed.
Qed.

Lemma fetch_failure_stops_witness :
  (calls (MainGo.run (answeringWorld 404 "Not Found") (rawRequest examplePayload))
   = [(FetchPRFiles "acme" "repo" 42,
       Files (inl ("GitHub API error: " ++ "Not Found")))]
   /\ responseBody (MainGo.run (answeringWorld 404 "Not Found") (rawRequest examplePayload))
      = "Error fetching PR files"
   /\ statusCode (MainGo.run (answeringWorld 404 "Not Found") (rawRequest examplePayload))
      = 200)
  /\
  (calls (Part000.run (answeringWorld 404 "Not Found") (rawRequest examplePayload))
   = [(FetchPRFiles "acme" "repo" 42,
       Files (inl ("GitHub API error: " ++ "Not Found")))]
   /\ responseBody (Part000.run (answeringWorld 404 "Not Found") (rawRequest examplePayload))
      = "Error fetching PR files"
   /\ statusCode (Part000.run (answeringWorld 404 "Not Found") (rawRequest examplePayload))
      = 200).
Proof.
  assert (Hn : resolvedNumber exampleEvent <> 0) by (vm_compute; discriminate).
  destruct (fetch_failure_stops (answeringWorld 404 "Not Found")
              (rawRequest examplePayload) exampleEvent
              ("GitHub API error: " ++ "Not Found") eq_refl Hn eq_refl) as [Hm Hp].
  split; [apply Hm | apply Hp]; reflexivity.
Defined.

Lemma concat_empty_cons (x : string) (xs : list string) :
  String.concat "" (x :: xs) = x ++ String.concat "" xs.
Proof.
  destruct xs as [|y ys]; simpl.
  - now rewrite append_nil_r.
  - reflexivity.
Qed.

Lemma forEach_fprintf_body {A} (g : A -> string) (xs : list A) (s : St) :
  responseBody (snd (forEach xs (fun x => fprintf (g x)) s))
  = responseBody s ++ String.concat "" (map g xs).
Proof.
  revert s. induction xs as [|x xs IH]; intros s.
  - simpl. now rewrite append_nil_r.
  - cbn [forEach map]. rewrite bind_run, IH, fprintf_body, concat_empty_cons.
    apply append_assoc.
Qed.

(** What [report] adds to the response. *)
Lemma report_body (W : World) (o r : string) (n : Z) (files : list PRFile)
  (vp : bool) (s : St) :
  responseBody (snd (report W o r n files vp s))
  = responseBody s ++ completeLine n vp ++ fileListing files.
Proof.
  unfold report. rewrite !bind_run.
  rewrite forEach_fprintf_body, !fprintf_body.
  set (e1 := fst (updatePRStatus W o r n (statusOf vp) (descriptionOf vp) s)).
  set (s1 := snd (updatePRStatus W o r n (statusOf vp) (descriptionOf vp) s)).
  assert (R1 : resp s1 = resp s) by apply updatePRStatus_sameResp.
  set (s2 := snd (match e1 with
                  | Some e => logPrintf ("Error updating PR status: " ++ e)
                  | None => ret tt
                  end s1)).
  assert (R2 : resp s2 = resp s1) by (subst s2; destruct e1; reflexivity).
  set (s3 := snd ((if negb vp then _ else ret tt) s2)).
  assert (R3 : resp s3 = resp s2).
  { subst s3. destruct vp; simpl; [reflexivity|].
    rewrite bind_run.
    assert (R := closePullRequest_sameResp W o r n s2). unfold sameResp in R.
    destruct (fst (closePullRequest W o r n s2)); simpl; exact R. }
  unfold responseBody at 1 2. rewrite R3, R2, R1.
  unfold fileListing. rewrite !append_assoc. reflexivity.
Qed.

(** The response of [process] when the files are fetched: what [middle]
    leaves, then the line of the verdict and the list of the files. *)
Lemma process_body (W : World) (ev : PullRequestEvent)
  (middle : list PRFile -> M unit) (validate : list PRFile -> bool)
  (files : list PRFile) :
  preserves bodyGrows (middle files) ->
  fetchResult W ev = inr files ->
  exists pre,
    responseBody (snd (process W ev middle validate initial))
    = pre ++ completeLine (resolvedNumber ev) (validate files) ++ fileListing files
    /\ (preserves sameResp (middle files) -> pre = "").
Proof.
  intros Hm Hf. unfold process. rewrite !bind_run.
  set (s0 := snd (logPrintf _ initial)).
  assert (E : fst (fetchPRFiles W (ownerOf ev) (repoOf ev) (resolvedNumber ev) s0)
              = inr files)
    by (rewrite <- Hf; apply fetchPRFiles_result; reflexivity).
  rewrite E.
  assert (R := fetchPRFiles_sameResp W (ownerOf ev) (repoOf ev) (resolvedNumber ev) s0).
  unfold sameResp in R.
  set (s1 := snd (fetchPRFiles W (ownerOf ev) (repoOf ev) (resolvedNumber ev) s0)) in *.
  rewrite !bind_run, report_body.
  set (sa := snd (logPrintf _ s1)).
  set (sb := snd (forEach files _ sa)).
  assert (Rb : resp sb = resp initial).
  { transitivity (resp sa).
    - apply (preserves_forEach sameResp sameResp_refl sameResp_trans).
      intros f. apply logPrintf_sameResp.
    - subst sa. simpl. rewrite R. reflexivity. }
  destruct (Hm sb) as [pre Hpre].
  exists pre. split.
  - rewrite Hpre. unfold responseBody at 1. rewrite Rb. reflexivity.
  - intros Hs. specialize (Hs sb). unfold sameResp in Hs.
    unfold responseBody in Hpre. rewrite Hs, Rb in Hpre. simpl in Hpre.
    now destruct pre.
Qed.

(** X9: when the files are fetched, the response of [main.go] is the line
    "PR #N validation complete. Status: ..." with the verdict of the
    validator, the line "Files changed in PR:" and one line for each changed
    file, in order; the response of the second variant ends with the same
    text, after its report. *)
Theorem response_lists_files (W : World) (r : Request) (ev : PullRequestEvent)
  (files : list PRFile) :
  decodeEvent W r = Some ev ->
  resolvedNumber ev <> 0 ->
  fetchResult W ev = inr files ->
  (acceptedMain (Action ev) = true ->
   responseBody (MainGo.run W r)
   = completeLine (resolvedNumber ev) (MainGo.validatePR files) ++ fileListing files)
  /\
  (acceptedPart (Action ev) = true ->
   exists pre,
     responseBody (Part000.run W r)
     = pre ++ completeLine (resolvedNumber ev) (Part000.validatePR files)
       ++ fileListing files).
Proof.
  intros Hd Hn Hf. split; intros Ha.
  - rewrite (main_run_accepted W r ev Hd Ha Hn).
    destruct (process_body W ev (fun _ => ret tt) MainGo.validatePR files
                (ret_bodyGrows files) Hf) as (pre & B & P).
    rewrite B, P; [reflexivity|].
    apply preserves_ret, sameResp_refl.
  - rewrite (part_run_accepted W r ev Hd Ha Hn).
    destruct (process_body W ev (Part000.enhancedReporting W) Part000.validatePR files
                (enhancedReporting_bodyGrows W files) Hf) as (pre & B & _).
    now exists pre.
Qed.

Lemma response_lists_files_witness :
  responseBody (MainGo.run
                  (exampleWorld exampleEvent
                     [mkPRFile "a/b/c.go" 3 1 4 "modified" "" "" ""; fileNamed "README"] true)
                  (rawRequest examplePayload))
  = completeLine 42 false
    ++ fileListing [mkPRFile "a/b/c.go" 3 1 4 "modified" "" "" ""; fileNamed "README"]
  /\
  exists pre,
    responseBody (Part000.run
                    (exampleWorld exampleEvent
                       [mkPRFile "a/b/c.go" 3 1 4 "modified" "" "" ""; fileNamed "README"] true)
                    (rawRequest examplePayload))
    = pre ++ completeLine 42 true
      ++ fileListing [mkPRFile "a/b/c.go" 3 1 4 "modified" "" "" ""; fileNamed "README"].
Proof.
  assert (Hn : resolvedNumber exampleEvent <> 0) by (vm_compute; discriminate).
  destruct (response_lists_files
              (exampleWorld exampleEvent
                 [mkPRFile "a/b/c.go" 3 1 4 "modified" "" "" ""; fileNamed "README"] true)
              (rawRequest examplePayload) exampleEvent
              [mkPRFile "a/b/c.go" 3 1 4 "modified" "" "" ""; fileNamed "README"]
              eq_refl Hn eq_refl) as [Hm Hp].
  split; [apply Hm | apply Hp]; reflexivity.
Defined.

(** ** The requests of a run *)

Lemma sendsOnly_refl (Q : HttpRequest -> Prop) (s : St) : sendsOnly Q s s.
Proof. exists []. split; [now rewrite app_nil_r | constructor]. Qed.

Lemma sendsOnly_trans (Q : HttpRequest -> Prop) (s1 s2 s3 : St) :
  sendsOnly Q s1 s2 -> sendsOnly Q s2 s3 -> sendsOnly Q s1 s3.
Proof.
  intros (r1 & E1 & F1) (r2 & E2 & F2). exists (r1 ++ r2)%list. split.
  - now rewrite E2, E1, app_assoc.
  - apply Forall_app. now split.
Qed.

Lemma sameCalls_sendsOnly (Q : HttpRequest -> Prop) {A} (m : M A) :
  preserves sameCalls m -> preserves (sendsOnly Q) m.
Proof.
  intros H s. destruct (H s) as [Hs _]. exists []. split.
  - now rewrite Hs, app_nil_r.
  - constructor.
Qed.

Lemma fetchPRFiles_sendsOnly (Q : HttpRequest -> Prop) (W : World)
  (o r : string) (n : Z) :
  Q (filesRequest o r n) -> preserves (sendsOnly Q) (fetchPRFiles W o r n).
Proof.
  intros Hq s. unfold fetchPRFiles, traced, bind, doRequest, ret.
  fold (filesRequest o r n).
  destruct (newRequestError W "GET" _);
    [exists []; split; [simpl; now rewrite app_nil_r | constructor]|].
  exists [filesRequest o r n]. split; [|now constructor].
  destruct (clientDo W _ _) as [e|rsp]; [reflexivity|].
  destruct (negb (StatusCode rsp =? 200)); [reflexivity|].
  destruct (decodeFiles W _); reflexivity.
Qed.

Lemma updatePRStatus_sendsOnly (Q : HttpRequest -> Prop) (W : World)
  (o r : string) (n : Z) (st d : string) :
  Q (lookupRequest W o r n) ->
  (forall sha, Q (statusRequest W o r sha st d)) ->
  preserves (sendsOnly Q) (updatePRStatus W o r n st d).
Proof.
  intros Hl Hp s. unfold updatePRStatus, traced, bind, doRequest, ret, logPrintf.
  fold (lookupRequest W o r n).
  destruct (newRequestError W "GET" _);
    [exists []; split; [simpl; now rewrite app_nil_r | constructor]|].
  destruct (clientDo W (sent s) (lookupRequest W o r n)) as [e|rsp].
  { exists [lookupRequest W o r n]. split; [reflexivity | now constructor]. }
  destruct (negb (StatusCode rsp =? 200)).
  { exists [lookupRequest W o r n]. split; [reflexivity | now constructor]. }
  destruct (decodeHeadSHA W (RespBody rsp)) as [e|sha].
  { exists [lookupRequest W o r n]. split; [reflexivity | now constructor]. }
  fold (statusRequest W o r sha st d).
  destruct (newRequestError W "POST" _).
  { exists [lookupRequest W o r n]. split; [reflexivity | now constructor]. }
  exists [lookupRequest W o r n; statusRequest W o r sha st d].
  split; [|repeat constructor; auto].
  simpl.
  destruct (clientDo W (sent s ++ [lookupRequest W o r n])
              (statusRequest W o r sha st d)) as [e|rsp2];
    simpl; [now rewrite <- app_assoc|].
  destruct (negb (StatusCode rsp2 =? 201)); simpl; now rewrite <- app_assoc.
Qed.

Lemma closePullRequest_sendsOnly (Q : HttpRequest -> Prop) (W : World)
  (o r : string) (n : Z) :
  Q (closeRequest W o r n) -> preserves (sendsOnly Q) (closePullRequest W o r n).
Proof.
  intros Hq s. unfold closePullRequest, traced, bind, doRequest, ret, logPrintf.
  fold (closeRequest W o r n).
  destruct (newRequestError W "PATCH" _);
    [exists []; split; [simpl; now rewrite app_nil_r | constructor]|].
  exists [closeRequest W o r n]. split; [|now constructor].
  destruct (clientDo W _ _) as [e|rsp]; [reflexivity|].
  destruct (negb (StatusCode rsp =? 200)); reflexivity.
Qed.

Lemma report_sendsOnly (Q : HttpRequest -> Prop) (W : World) (o r : string)
  (n : Z) (files : list PRFile) (vp : bool) :
  Q (lookupRequest W o r n) ->
  (forall sha, Q (statusRequest W o r sha (statusOf vp) (descriptionOf vp))) ->
  (vp = false -> Q (closeRequest W o r n)) ->
  preserves (sendsOnly Q) (report W o r n files vp).
Proof.
  intros Hl Hp Hc. unfold report.
  apply preserves_bind; [apply sendsOnly_trans | now apply updatePRStatus_sendsOnly |].
  intros e1.
  apply preserves_bind; [apply sendsOnly_trans | |].
  { apply sameCalls_sendsOnly. destruct e1; preserves_auto. }
  intros _.
  apply preserves_bind; [apply sendsOnly_trans | |].
  { destruct vp; simpl.
    - apply preserves_ret, sendsOnly_refl.
    - apply preserves_bind;
        [apply sendsOnly_trans | apply closePullRequest_sendsOnly; auto |].
      intros e3. apply sameCalls_sendsOnly. destruct e3; preserves_auto. }
  intros _. apply sameCalls_sendsOnly. preserves_auto.
Qed.

Lemma process_sends (Q : HttpRequest -> Prop) (W : World) (ev : PullRequestEvent)
  (middle : list PRFile -> M unit) (validate : list PRFile -> bool) :
  (forall files, preserves sameCalls (middle files)) ->
  Q (filesRequest (ownerOf ev) (repoOf ev) (resolvedNumber ev)) ->
  Q (lookupRequest W (ownerOf ev) (repoOf ev) (resolvedNumber ev)) ->
  (forall sha st d, Q (statusRequest W (ownerOf ev) (repoOf ev) sha st d)) ->
  (forall files, fetchResult W ev = inr files -> validate files = false ->
                 Q (closeRequest W (ownerOf ev) (repoOf ev) (resolvedNumber ev))) ->
  Forall Q (sent (snd (process W ev middle validate initial))).
Proof.
  intros Hm Hf Hl Hp Hc. unfold process. rewrite !bind_run.
  set (s0 := snd (logPrintf _ initial)).
  assert (E : fst (fetchPRFiles W (ownerOf ev) (repoOf ev) (resolvedNumber ev) s0)
              = fetchResult W ev)
    by (apply fetchPRFiles_result; reflexivity).
  assert (S1 := fetchPRFiles_sendsOnly Q W (ownerOf ev) (repoOf ev)
                  (resolvedNumber ev) Hf s0).
  set (s1 := snd (fetchPRFiles W (ownerOf ev) (repoOf ev) (resolvedNumber ev) s0)) in *.
  rewrite E.
  assert (K : forall k : M unit, preserves (sendsOnly Q) k -> Forall Q (sent (snd (k s1)))).
  { intros k Hk.
    destruct (sendsOnly_trans Q s0 s1 (snd (k s1)) S1 (Hk s1)) as (reqs & Es & F).
    rewrite Es. exact F. }
  destruct (fetchResult W ev) as [err|files] eqn:Hr; apply K.
  - apply sameCalls_sendsOnly. preserves_auto.
  - apply preserves_bind; [apply sendsOnly_trans | |].
    { apply sameCalls_sendsOnly. preserves_auto. }
    intros _. apply preserves_bind; [apply sendsOnly_trans | |].
    { apply sameCalls_sendsOnly. preserves_auto. }
    intros _. apply preserves_bind; [apply sendsOnly_trans | |].
    { apply sameCalls_sendsOnly, Hm. }
    intros _. apply report_sendsOnly; auto.
    intros Hv. now apply (Hc files).
Qed.





(** X11: in the second variant, an accepted event whose fetched files pass
    the validation never leads to a PATCH request: nothing is sent to close
    the pull request. *)
Theorem no_patch_when_passed (W : World) (r : Request) (ev : PullRequestEvent)
  (files : list PRFile) :
  decodeEvent W r = Some ev ->
  acceptedPart (Action ev) = true ->
  resolvedNumber ev <> 0 ->
  fetchResult W ev = inr files ->
  Part000.validatePR files = true ->
  Forall (fun rq => String.eqb (Method rq) "PATCH" = false) (sent (Part000.run W r)).
Proof.
  intros Hd Ha Hn Hf Hv.
  rewrite (part_run_accepted W r ev Hd Ha Hn).
  apply process_sends; try reflexivity.
  - apply enhancedReporting_sameCalls.
  - intros files' Hf' Hv'. congruence.
Qed.

Lemma no_patch_when_passed_witness :
  Forall (fun rq => String.eqb (Method rq) "PATCH" = false)
    (sent (Part000.run (exampleWorld exampleEvent [fileNamed "ok.txt"] true)
             (rawRequest examplePayload))).
Proof.
  assert (Hn : resolvedNumber exampleEvent <> 0) by (vm_compute; discriminate).
  apply (no_patch_when_passed (exampleWorld exampleEvent [fileNamed "ok.txt"] true)
           (rawRequest examplePayload) exampleEvent [fileNamed "ok.txt"]
           eq_refl eq_refl Hn eq_refl eq_refl).
Defined.

(** * Properties of the report of the second variant *)

Lemma In_insertKey (x k : string) (l : list string) :
  In x (insertKey k l) <-> x = k \/ In x l.
Proof.
  induction l as [|y l IH]; simpl.
  - intuition.
  - destruct (String.compare k y) eqn:C; simpl.
    + apply String.compare_eq_iff in C. subst. intuition.
    + intuition.
    + rewrite IH. intuition.
Qed.

Lemma In_deleteKey (x k : string) (l : list string) :
  In x (deleteKey k l) <-> In x l /\ x <> k.
Proof.
  unfold deleteKey. rewrite filter_In.
  destruct (String.eqb_spec x k); simpl; intuition congruence.
Qed.

Lemma In_fold_insertKey (x : string) (xs acc : list string) :
  In x (fold_left (fun m s => insertKey s m) xs acc) <-> In x xs \/ In x acc.
Proof.
  revert acc. induction xs as [|y xs IH]; intros acc; simpl.
  - intuition.
  - rewrite IH, In_insertKey. intuition.
Qed.

Lemma In_fold_deleteKey (x : string) (xs acc : list string) :
  In x (fold_left (fun m s => deleteKey s m) xs acc) <-> In x acc /\ ~ In x xs.
Proof.
  revert acc. induction xs as [|y xs IH]; intros acc; simpl.
  - intuition.
  - rewrite IH, In_deleteKey. intuition congruence.
Qed.

(** X12: a server is among the impacted servers of an app exactly when it is
    in the white list or is a value of a CMDB white list, and is neither in
    the black list nor a value of a CMDB black list: black lists win. *)
Theorem impactedServers_iff (app : AppsJson.App) (server : string) :
  In server (Part000.impactedServers app)
  <->
  (In server (AppsJson.Whitelists app)
   \/ In server (Part000.valuesOf (AppsJson.CMDBWhitelists app)))
  /\ ~ In server (AppsJson.Blacklists app)
  /\ ~ In server (Part000.valuesOf (AppsJson.CMDBBlacklists app)).
Proof.
  unfold Part000.impactedServers.
  rewrite !In_fold_deleteKey, !In_fold_insertKey. simpl. intuition.
Qed.

Lemma scanFile_skip (acc : Part000.Scan) (f : PRFile) :
  reported f = false -> Part000.scanFile acc f = acc.
Proof.
  unfold reported, Part000.scanFile. intros H.
  apply orb_false_iff in H. destruct H as [Hn Hl]. rewrite Hn.
  destruct (split "/" (Filename f)) as [|a [|m [|n rest]]]; try reflexivity.
  discriminate.
Qed.

Lemma scan_patch_rest (files : list PRFile) (acc : Part000.Scan) :
  (forall f, In f files -> Filename f <> "apps.json") ->
  Part000.appsJsonPatch (fold_left Part000.scanFile files acc)
  = Part000.appsJsonPatch acc.
Proof.
  revert acc. induction files as [|f files IH]; intros acc H; simpl.
  - reflexivity.
  - rewrite IH by (intros g Hg; apply H; now right).
    unfold Part000.scanFile.
    destruct (String.eqb_spec (Filename f) "apps.json") as [E|_].
    + elim (H f); [now left | exact E].
    + destruct (split "/" (Filename f)) as [|a [|m [|n rest]]]; reflexivity.
Qed.

(** X13: the patch that the report shows for [apps.json] is the patch of the
    last changed file of that name; it is empty when there is none. *)
Theorem appsJsonPatch_last (files : list PRFile) :
  ((forall f, In f files -> Filename f <> "apps.json") ->
   Part000.appsJsonPatch (Part000.scanFiles files) = "")
  /\
  (forall before f after,
     files = (before ++ f :: after)%list ->
     Filename f = "apps.json" ->
     (forall g, In g after -> Filename g <> "apps.json") ->
     Part000.appsJsonPatch (Part000.scanFiles files) = Patch f).
Proof.
  unfold Part000.scanFiles. split.
  - intros H. now rewrite scan_patch_rest.
  - intros before f after -> Hf Hafter.
    rewrite fold_left_app. simpl. rewrite scan_patch_rest by exact Hafter.
    unfold Part000.scanFile. rewrite Hf. reflexivity.
Qed.

Lemma appsJsonPatch_last_witness :
  Part000.appsJsonPatch
    (Part000.scanFiles [fileNamed "a/b/c"; fileNamed "README"]) = ""
  /\
  Part000.appsJsonPatch
    (Part000.scanFiles
       [mkPRFile "apps.json" 1 0 1 "modified" "" "" "+old";
        fileNamed "a/b/c";
        mkPRFile "apps.json" 2 0 2 "modified" "" "" "+new";
        fileNamed "README"]) = "+new".
Proof.
  split.
  - apply (proj1 (appsJsonPatch_last [fileNamed "a/b/c"; fileNamed "README"])).
    intros f [<-|[<-|[]]]; discriminate.
  - apply (proj2 (appsJsonPatch_last
                    [mkPRFile "apps.json" 1 0 1 "modified" "" "" "+old";
                     fileNamed "a/b/c";
                     mkPRFile "apps.json" 2 0 2 "modified" "" "" "+new";
                     fileNamed "README"])
             [mkPRFile "apps.json" 1 0 1 "modified" "" "" "+old"; fileNamed "a/b/c"]
             (mkPRFile "apps.json" 2 0 2 "modified" "" "" "+new")
             [fileNamed "README"]); try reflexivity.
    intros g [<-|[]]; discriminate.
Defined.

(** The files of the pull request that [cf] may come from. *)
Lemma scan_changedFiles (files : list PRFile) (acc : Part000.Scan)
  (cf : Part000.ChangedFile) :
  In cf (Part000.changedFiles (fold_left Part000.scanFile files acc))
  <->
  In cf (Part000.changedFiles acc)
  \/ (In (Part000.File cf) files
      /\ exists rest,
           split "/" (Filename (Part000.File cf))
           = Part000.AppName cf :: Part000.ModuleName cf :: Part000.FileName cf :: rest).
Proof.
  revert acc. induction files as [|f files IH]; intros acc; simpl.
  - split; [auto | intros [H|[[] _]]; exact H].
  - rewrite IH. unfold Part000.scanFile at 1.
    destruct (String.eqb_spec (Filename f) "apps.json") as [E|_]; simpl.
    + split.
      * intros [H|(Hin & rest & Hs)]; [auto | right; split; [auto | now exists rest]].
      * intros [H|([Hf|Hin] & rest & Hs)]; [auto | | right; split; [auto | now exists rest]].
        subst f. rewrite E in Hs. discriminate.
    + destruct (split "/" (Filename f)) as [|a [|m [|n rest0]]] eqn:S; simpl.
      * split; [intuition|].
        intros [H|([Hf|Hin] & rest & Hs)]; [auto | | right; split; [auto | now exists rest]].
        subst f. congruence.
      * split; [intuition|].
        intros [H|([Hf|Hin] & rest & Hs)]; [auto | | right; split; [auto | now exists rest]].
        subst f. congruence.
      * split; [intuition|].
        intros [H|([Hf|Hin] & rest & Hs)]; [auto | | right; split; [auto | now exists rest]].
        subst f. congruence.
      * rewrite in_app_iff. simpl. split.
        -- intros [[H|[H|[]]]|(Hin & rest & Hs)]; [auto | |right; split; [auto | now exists rest]].
           subst cf. simpl. right. split; [now left | now exists rest0].
        -- intros [H|([Hf|Hin] & rest & Hs)];
             [auto | | right; split; [auto | now exists rest]].
           left. right. left. subst f. rewrite S in Hs. injection Hs as -> -> -> _.
           now destruct cf.
Qed.

(** X14: the changed files of the report are the files of the pull request
    whose path has at least three segments, each with its first three
    segments as application, module and file name; a file named [apps.json]
    is never one of them. *)
Theorem changedFiles_iff (files : list PRFile) (cf : Part000.ChangedFile) :
  In cf (Part000.changedFiles (Part000.scanFiles files))
  <->
  In (Part000.File cf) files
  /\ exists rest,
       split "/" (Filename (Part000.File cf))
       = Part000.AppName cf :: Part000.ModuleName cf :: Part000.FileName cf :: rest.
Proof.
  unfold Part000.scanFiles. rewrite scan_changedFiles. simpl. intuition.
Qed.

Lemma scan_apps_invariant (files : list PRFile) (acc : Part000.Scan) :
  (forall a, In a (Part000.changedAppsMap acc)
             <-> exists cf, In cf (Part000.changedFiles acc) /\ Part000.AppName cf = a) ->
  forall a,
    In a (Part000.changedAppsMap (fold_left Part000.scanFile files acc))
    <-> exists cf, In cf (Part000.changedFiles (fold_left Part000.scanFile files acc))
                   /\ Part000.AppName cf = a.
Proof.
  revert acc. induction files as [|f files IH]; intros acc Hacc; simpl.
  - exact Hacc.
  - apply IH. intros a. unfold Part000.scanFile.
    destruct (String.eqb (Filename f) "apps.json"); simpl; [apply Hacc|].
    destruct (split "/" (Filename f)) as [|a0 [|m [|n rest]]]; simpl;
      try apply Hacc.
    rewrite In_insertKey, Hacc. split.
    + intros [->|(cf & Hin & Ha)].
      * eexists. split; [apply in_or_app; right; now left | reflexivity].
      * exists cf. split; [apply in_or_app; now left | exact Ha].
    + intros (cf & Hin & Ha). apply in_app_or in Hin.
      destruct Hin as [Hin|[<-|[]]].
      * right. now exists cf.
      * left. now rewrite <- Ha.
Qed.

(** X15: the applications that the report counts as changed are exactly the
    applications of its changed files: the map has a key for each of them and
    no other key; so it is empty exactly when no file is taken up. *)
Theorem changedApps_iff (files : list PRFile) (app : string) :
  In app (Part000.changedAppsMap (Part000.scanFiles files))
  <->
  exists cf, In cf (Part000.changedFiles (Part000.scanFiles files))
             /\ Part000.AppName cf = app.
Proof.
  unfold Part000.scanFiles. apply scan_apps_invariant.
  intros a. simpl. split; [intros [] | intros (cf & [] & _)].
Qed.

Lemma scanFiles_nothing (files : list PRFile) :
  (forall f, In f files -> reported f = false) ->
  Part000.scanFiles files = Part000.mkScan [] [] "".
Proof.
  unfold Part000.scanFiles. generalize (Part000.mkScan [] [] "").
  induction files as [|f files IH]; intros acc H; simpl.
  - reflexivity.
  - rewrite scanFile_skip by (apply H; now left).
    apply IH. intros g Hg. apply H. now right.
Qed.

Lemma enhancedReporting_nothing (W : World) (files : list PRFile) (s : St) :
  rangeKeys W [] = [] ->
  (forall f, In f files -> reported f = false) ->
  Part000.enhancedReporting W files s = (tt, s).
Proof.
  intros Hr Hf. unfold Part000.enhancedReporting.
  rewrite (scanFiles_nothing files Hf). simpl. rewrite Hr. reflexivity.
Qed.

(** X16: when no changed file is named [apps.json] or has a path of three
    segments or more, the report of the second variant does nothing: it
    writes nothing to the response and logs nothing (a [range] over the empty
    map visits no key). *)
Theorem report_silent (W : World) (files : list PRFile) (s : St) :
  rangeKeys W [] = [] ->
  (forall f, In f files -> reported f = false) ->
  Part000.enhancedReporting W files s = (tt, s).
Proof. apply enhancedReporting_nothing. Qed.

Lemma report_silent_witness :
  Part000.enhancedReporting (exampleWorld exampleEvent [] true)
    [fileNamed "README.md"; fileNamed "docs/guide.md"] initial
  = (tt, initial).
Proof.
  apply (report_silent (exampleWorld exampleEvent [] true)
           [fileNamed "README.md"; fileNamed "docs/guide.md"] initial eq_refl).
  intros f [<-|[<-|[]]]; reflexivity.
Defined.

(** X17: for such files the whole response of the second variant is the line
    of the verdict followed by the list of the files, as in [main.go]. *)
Theorem part_response_without_report (W : World) (r : Request)
  (ev : PullRequestEvent) (files : list PRFile) :
  decodeEvent W r = Some ev ->
  acceptedPart (Action ev) = true ->
  resolvedNumber ev <> 0 ->
  fetchResult W ev = inr files ->
  rangeKeys W [] = [] ->
  (forall f, In f files -> reported f = false) ->
  responseBody (Part000.run W r)
  = completeLine (resolvedNumber ev) (Part000.validatePR files) ++ fileListing files.
Proof.
  intros Hd Ha Hn Hf Hr Hrep.
  rewrite (part_run_accepted W r ev Hd Ha Hn).
  destruct (process_body W ev (Part000.enhancedReporting W) Part000.validatePR files
              (enhancedReporting_bodyGrows W files) Hf) as (pre & B & P).
  rewrite B, P; [reflexivity|].
  intros s. unfold sameResp. now rewrite enhancedReporting_nothing.
Qed.

Lemma part_response_without_report_witness :
  responseBody (Part000.run
                  (exampleWorld exampleEvent
                     [fileNamed "README.md"; fileNamed "forbidden.txt"] true)
                  (rawRequest examplePayload))
  = completeLine 42 false
    ++ fileListing [fileNamed "README.md"; fileNamed "forbidden.txt"].
Proof.
  assert (Hn : resolvedNumber exampleEvent <> 0) by (vm_compute; discriminate).
  apply (part_response_without_report
           (exampleWorld exampleEvent
              [fileNamed "README.md"; fileNamed "forbidden.txt"] true)
           (rawRequest examplePayload) exampleEvent
           [fileNamed "README.md"; fileNamed "forbidden.txt"]
           eq_refl eq_refl Hn eq_refl eq_refl).
  intros f [<-|[<-|[]]]; reflexivity.
Defined.

(** * Further properties of the validator *)

Lemma hasForbidden_app (files1 files2 : list PRFile) :
  hasForbidden (files1 ++ files2) = hasForbidden files1 || hasForbidden files2.
Proof. unfold hasForbidden. apply existsb_app. Qed.

Lemma hasForbidden_permutation (files1 files2 : list PRFile) :
  Permutation files1 files2 -> hasForbidden files1 = hasForbidden files2.
Proof.
  intros P. destruct (hasForbidden files2) eqn:E.
  - apply hasForbidden_true_iff in E. destruct E as (f & Hin & Hf).
    apply hasForbidden_true_iff. exists f. split; [|exact Hf].
    apply Permutation_in with files2; [now apply Permutation_sym | exact Hin].
  - apply hasForbidden_false_iff. intros f Hin.
    apply (proj1 (hasForbidden_false_iff files2) E).
    now apply Permutation_in with files1.
Qed.

(** X18: the verdict of the validator of the second variant does not depend
    on the order of the files, and a list passes exactly when each of its
    parts does: [validatePR (files1 ++ files2)] is the conjunction of the two
    verdicts. *)
Theorem validatePR_order_and_parts (files1 files2 : list PRFile) :
  Part000.validatePR (files1 ++ files2)
  = Part000.validatePR files1 && Part000.validatePR files2
  /\ (forall files, Permutation (files1 ++ files2) files ->
        Part000.validatePR files = Part000.validatePR (files1 ++ files2)).
Proof.
  split.
  - rewrite !part_validatePR_spec, hasForbidden_app. apply negb_orb.
  - intros files P. rewrite !part_validatePR_spec. f_equal.
    symmetry. now apply hasForbidden_permutation.
Qed.

Lemma validatePR_order_and_parts_witness :
  Part000.validatePR ([fileNamed "a.go"] ++ [fileNamed "forbidden.txt"; fileNamed "b.go"])
  = Part000.validatePR [fileNamed "a.go"]
    && Part000.validatePR [fileNamed "forbidden.txt"; fileNamed "b.go"]
  /\ Part000.validatePR [fileNamed "forbidden.txt"; fileNamed "b.go"; fileNamed "a.go"]
     = Part000.validatePR ([fileNamed "a.go"] ++ [fileNamed "forbidden.txt"; fileNamed "b.go"]).
Proof.
  destruct (validatePR_order_and_parts [fileNamed "a.go"]
              [fileNamed "forbidden.txt"; fileNamed "b.go"]) as [Happ Hperm].
  split; [exact Happ|].
  apply Hperm.
  apply (Permutation_cons_append [fileNamed "forbidden.txt"; fileNamed "b.go"]
           (fileNamed "a.go")).
Defined.
